(** * Native post-quantum addons: ML-KEM-768 and ML-DSA-65 behind N-API

    A shallow embedding of the two addon classes of
    [backend/addons/liboqs-native/src]:

    - [liboqs_addon.cpp], class [LibOQSAddon]: the registry backend, which
      resolves its algorithms by name through liboqs ([Module Registry]);
    - [liboqs_addon_direct.cpp], class [LibOQSDirectAddon]: the fixed
      backend, bound to the PQClean entry points of ML-KEM-768 and ML-DSA-65
      with compile-time lengths ([Module Direct]).

    The cryptographic primitives are external C libraries.  They are taken
    as interfaces ([LibOQS], [PQClean]); every method of the addons is
    translated against an arbitrary implementation of its interface. *)

From Stdlib Require Import List Strings.String Strings.Byte ZArith Lia Bool Arith.
Import ListNotations.

(* Strings.String shadows the list functions of the same name. *)
Local Abbreviation length := Datatypes.length.

Set Warnings "-register-all".
Local Open Scope nat_scope.

(** ** JavaScript values as seen through N-API *)

Module Napi.

(** [Napi::Value].  An [Object] lists its properties in the order they
    were set; an [Array] is a JavaScript array, where [None] is a hole. *)
Inductive Value : Type :=
| Undefined
| Null
| Boolean (b : bool)
| Number (n : nat)
| String (s : string)
| Buffer (bytes : list byte)
| Array (elements : list (option Value))
| Object (properties : list (string * Value)).

(** [Napi::Error] and [Napi::TypeError], thrown with
    [ThrowAsJavaScriptException]. *)
Inductive Exception : Type :=
| Error (message : string)
| TypeError (message : string).

(** [value.IsBuffer()] *)
Definition IsBuffer (v : Value) : bool :=
  match v with Buffer _ => true | _ => false end.

(** [buffer.Data()] together with [buffer.Length()]: the bytes of a
    buffer.  Only called on values for which [IsBuffer] holds. *)
Definition Data (v : Value) : list byte :=
  match v with Buffer bytes => bytes | _ => [] end.

(** [info[i]] of a [Napi::CallbackInfo]: [undefined] past the last
    argument. *)
Definition arg (info : list Value) (i : nat) : Value :=
  nth i info Undefined.

(** [object.Get(key)]: the value last set under [key]. *)
Fixpoint Get (key : string) (properties : list (string * Value))
  : option Value :=
  match properties with
  | [] => None
  | (k, v) :: rest =>
      match Get key rest with
      | Some later => Some later
      | None => if String.eqb k key then Some v else None
      end
  end.

(** [array.Set(i, value)]: a JavaScript array grows, leaving holes, when
    it is written past its end. *)
Definition SetElement (i : nat) (v : Value)
  (elements : list (option Value)) : list (option Value) :=
  if i <? length elements
  then firstn i elements ++ Some v :: skipn (S i) elements
  else elements ++ repeat None (i - length elements) ++ [Some v].

End Napi.

(** ** Byte vectors and raw pointers *)

(** [std::vector<uint8_t> v(n)]: [n] zero bytes. *)
Definition vector (n : nat) : list byte := repeat x00 n.

(** What a vector holds after a primitive has written [src] through
    [v.data()]: its first bytes are overwritten and its size is unchanged.
    The primitives are trusted to stay inside the destination they are
    given, so bytes past the end of the vector are not modelled. *)
Definition store (dst src : list byte) : list byte :=
  firstn (length dst) (src ++ skipn (length src) dst).

(** [std::copy(src.begin(), src.end(), dst.begin() + offset)] *)
Definition copy_at (dst : list byte) (offset : nat) (src : list byte)
  : list byte :=
  firstn offset dst ++ store (skipn offset dst) src.

(** [v.resize(n)]: truncates, or pads with zero bytes. *)
Definition resize (n : nat) (v : list byte) : list byte :=
  firstn n v ++ repeat x00 (n - length v).

(** The ways a call can leave defined behaviour. *)
Inductive Fault : Type :=
| OutOfBoundsRead.

(** The result of a native method: a value handed back to JavaScript, a
    pending JavaScript exception, or a fault. *)
Inductive Outcome (A : Type) : Type :=
| Returns (a : A)
| Throws (e : Napi.Exception)
| Faults (f : Fault).

Arguments Returns {A} a.
Arguments Throws {A} e.
Arguments Faults {A} f.

(** A key handed to a primitive as a bare pointer carries no length: the
    primitive reads the [n] bytes its algorithm declares.  Reading them from
    a shorter buffer runs past its end. *)
Definition load (n : nat) (buffer : list byte) : Outcome (list byte) :=
  if n <=? length buffer then Returns (firstn n buffer)
  else Faults OutOfBoundsRead.

(** ** Native calls

    The only state a call can touch is the state of the primitive library
    [W] (its random generator): the addon classes have no data members.
    The [catch (const std::exception&)] handler around each method body
    guards against a failed allocation, which does not arise here, where
    vectors are lists. *)
Definition Call (W A : Type) : Type := W -> Outcome A * W.

Section CallMonad.
Context {W : Type}.

Definition ret {A} (a : A) : Call W A := fun w => (Returns a, w).

Definition bind {A B} (c : Call W A) (k : A -> Call W B) : Call W B :=
  fun w =>
    match c w with
    | (Returns a, w') => k a w'
    | (Throws e, w') => (Throws e, w')
    | (Faults f, w') => (Faults f, w')
    end.

(** [Napi::Error::New(env, msg).ThrowAsJavaScriptException(); return env.Null();] *)
Definition throw {A} (e : Napi.Exception) : Call W A := fun w => (Throws e, w).

(** A step that does not touch the library state. *)
Definition pure {A} (o : Outcome A) : Call W A := fun w => (o, w).

(** A primitive that consumes randomness. *)
Definition random {A} (f : W -> A * W) : Call W A :=
  fun w => let (a, w') := f w in (Returns a, w').
End CallMonad.

Declare Scope call_scope.
Delimit Scope call_scope with call.
Notation "x <- c ;; k" := (bind c (fun x => k))
  (at level 61, c at next level, right associativity) : call_scope.
Notation "' pat <- c ;; k" := (bind c (fun x => match x with pat => k end))
  (at level 61, pat pattern, c at next level, right associativity) : call_scope.

(** ** The primitive libraries *)

(** [OQS_STATUS] of liboqs. *)
Inductive OQS_STATUS : Type :=
| OQS_ERROR
| OQS_SUCCESS
| OQS_EXTERNAL_LIB_ERROR_OPENSSL.

Definition OQS_STATUS_eqb (a b : OQS_STATUS) : bool :=
  match a, b with
  | OQS_ERROR, OQS_ERROR => true
  | OQS_SUCCESS, OQS_SUCCESS => true
  | OQS_EXTERNAL_LIB_ERROR_OPENSSL, OQS_EXTERNAL_LIB_ERROR_OPENSSL => true
  | _, _ => false
  end.

(** The fields of [struct OQS_KEM] the addon reads. *)
Module OQS_KEM.
Record t : Type := {
  length_public_key : nat;
  length_secret_key : nat;
  length_ciphertext : nat;
  length_shared_secret : nat
}.
End OQS_KEM.

(** The fields of [struct OQS_SIG] the addon reads. *)
Module OQS_SIG.
Record t : Type := {
  length_public_key : nat;
  length_secret_key : nat;
  length_signature : nat
}.
End OQS_SIG.

(** What [liboqs_addon.cpp] uses of [<oqs/oqs.h>].  A primitive returns its
    status and the bytes it writes through each output pointer; the length
    it reports through a [size_t*] is the length of what it wrote.  Key
    generation and signing draw on the library's random generator, whose
    state is [W]. *)
Class LibOQS (W : Type) : Type := {
  OQS_VERSION_TEXT : string;
  OQS_KEM_alg_ml_kem_768 : string;
  OQS_SIG_alg_ml_dsa_65 : string;
  OQS_KEM_algs_length : nat;
  OQS_KEM_alg_identifier : nat -> option string;
  OQS_SIG_algs_length : nat;
  OQS_SIG_alg_identifier : nat -> option string;
  OQS_KEM_new : string -> option OQS_KEM.t;
  OQS_SIG_new : string -> option OQS_SIG.t;
  OQS_KEM_keypair : OQS_KEM.t -> W -> (OQS_STATUS * list byte * list byte) * W;
  OQS_SIG_keypair : OQS_SIG.t -> W -> (OQS_STATUS * list byte * list byte) * W;
  (* sig, message, secret key *)
  OQS_SIG_sign : OQS_SIG.t -> list byte -> list byte -> W ->
                 (OQS_STATUS * list byte) * W;
  (* sig, message, signature, public key *)
  OQS_SIG_verify : OQS_SIG.t -> list byte -> list byte -> list byte ->
                   OQS_STATUS
}.

(** The [extern "C"] declarations of [liboqs_addon_direct.cpp].  A C [int]
    result is a [Z]; output pointers as for [LibOQS]. *)
Class PQClean (W : Type) : Type := {
  PQCLEAN_MLKEM768_CLEAN_crypto_kem_keypair :
    W -> (Z * list byte * list byte) * W;
  (* pk; gives ct, ss *)
  PQCLEAN_MLKEM768_CLEAN_crypto_kem_enc :
    list byte -> W -> (Z * list byte * list byte) * W;
  (* ct, sk; gives ss *)
  PQCLEAN_MLKEM768_CLEAN_crypto_kem_dec :
    list byte -> list byte -> Z * list byte;
  PQCLEAN_MLDSA65_CLEAN_crypto_sign_keypair :
    W -> (Z * list byte * list byte) * W;
  (* m, sk; gives sm *)
  PQCLEAN_MLDSA65_CLEAN_crypto_sign :
    list byte -> list byte -> W -> (Z * list byte) * W;
  (* sm, pk; gives m *)
  PQCLEAN_MLDSA65_CLEAN_crypto_sign_open :
    list byte -> list byte -> Z * list byte
}.

(** ** The registry backend: [liboqs_addon.cpp], class [LibOQSAddon]

    The constructor calls [OQS_init], and every method releases the
    algorithm object it created with [OQS_KEM_free] or [OQS_SIG_free]
    before it returns; neither shows in a result. *)

Module Registry.
Section Addon.
Context {W : Type} {oqs : LibOQS W}.
Local Open Scope call_scope.

Definition GenerateKEMKeyPair (info : list Napi.Value) : Call W Napi.Value :=
  match OQS_KEM_new OQS_KEM_alg_ml_kem_768 with
  | None => throw (Napi.Error "Failed to create ML-KEM-768 instance")
  | Some kem =>
      let public_key := vector (OQS_KEM.length_public_key kem) in
      let secret_key := vector (OQS_KEM.length_secret_key kem) in
      '(status, pk, sk) <- random (OQS_KEM_keypair kem) ;;
      let public_key := store public_key pk in
      let secret_key := store secret_key sk in
      if negb (OQS_STATUS_eqb status OQS_SUCCESS)
      then throw (Napi.Error "Failed to generate ML-KEM-768 key pair")
      else
        ret (Napi.Object
               [ ("publicKey"%string, Napi.Buffer public_key);
                 ("secretKey"%string, Napi.Buffer secret_key);
                 ("algorithm"%string, Napi.String "ML-KEM-768");
                 ("publicKeyLength"%string,
                   Napi.Number (OQS_KEM.length_public_key kem));
                 ("secretKeyLength"%string,
                   Napi.Number (OQS_KEM.length_secret_key kem));
                 ("ciphertextLength"%string,
                   Napi.Number (OQS_KEM.length_ciphertext kem));
                 ("sharedSecretLength"%string,
                   Napi.Number (OQS_KEM.length_shared_secret kem)) ])
  end.

Definition GenerateSignatureKeyPair (info : list Napi.Value)
  : Call W Napi.Value :=
  match OQS_SIG_new OQS_SIG_alg_ml_dsa_65 with
  | None => throw (Napi.Error "Failed to create ML-DSA-65 instance")
  | Some sig =>
      let public_key := vector (OQS_SIG.length_public_key sig) in
      let secret_key := vector (OQS_SIG.length_secret_key sig) in
      '(status, pk, sk) <- random (OQS_SIG_keypair sig) ;;
      let public_key := store public_key pk in
      let secret_key := store secret_key sk in
      if negb (OQS_STATUS_eqb status OQS_SUCCESS)
      then throw (Napi.Error "Failed to generate ML-DSA-65 key pair")
      else
        ret (Napi.Object
               [ ("publicKey"%string, Napi.Buffer public_key);
                 ("secretKey"%string, Napi.Buffer secret_key);
                 ("algorithm"%string, Napi.String "ML-DSA-65");
                 ("publicKeyLength"%string,
                   Napi.Number (OQS_SIG.length_public_key sig));
                 ("secretKeyLength"%string,
                   Napi.Number (OQS_SIG.length_secret_key sig));
                 ("maxSignatureLength"%string,
                   Napi.Number (OQS_SIG.length_signature sig)) ])
  end.

Definition SignData (info : list Napi.Value) : Call W Napi.Value :=
  if (length info <? 2)
     || negb (Napi.IsBuffer (Napi.arg info 0))
     || negb (Napi.IsBuffer (Napi.arg info 1))
  then throw (Napi.TypeError "Expected (data: Buffer, secretKey: Buffer)")
  else
    let data_buffer := Napi.Data (Napi.arg info 0) in
    let secret_key_buffer := Napi.Data (Napi.arg info 1) in
    match OQS_SIG_new OQS_SIG_alg_ml_dsa_65 with
    | None => throw (Napi.Error "Failed to create ML-DSA-65 instance")
    | Some sig =>
        let signature := vector (OQS_SIG.length_signature sig) in
        secret_key <-
          pure (load (OQS_SIG.length_secret_key sig) secret_key_buffer) ;;
        '(status, written) <-
          random (OQS_SIG_sign sig data_buffer secret_key) ;;
        let signature := store signature written in
        let signature_length := length written in
        if negb (OQS_STATUS_eqb status OQS_SUCCESS)
        then throw (Napi.Error "Failed to sign data with ML-DSA-65")
        else
          (* Resize signature to actual length *)
          let signature := resize signature_length signature in
          ret (Napi.Buffer signature)
    end.

Definition VerifySignature (info : list Napi.Value) : Call W Napi.Value :=
  if (length info <? 3)
     || negb (Napi.IsBuffer (Napi.arg info 0))
     || negb (Napi.IsBuffer (Napi.arg info 1))
     || negb (Napi.IsBuffer (Napi.arg info 2))
  then
    throw (Napi.TypeError
             "Expected (data: Buffer, signature: Buffer, publicKey: Buffer)")
  else
    let data_buffer := Napi.Data (Napi.arg info 0) in
    let signature_buffer := Napi.Data (Napi.arg info 1) in
    let public_key_buffer := Napi.Data (Napi.arg info 2) in
    match OQS_SIG_new OQS_SIG_alg_ml_dsa_65 with
    | None => throw (Napi.Error "Failed to create ML-DSA-65 instance")
    | Some sig =>
        public_key <-
          pure (load (OQS_SIG.length_public_key sig) public_key_buffer) ;;
        let status :=
          OQS_SIG_verify sig data_buffer signature_buffer public_key in
        ret (Napi.Boolean (OQS_STATUS_eqb status OQS_SUCCESS))
    end.

(** [for (size_t i = 0; i < count; i++) { name = identifier(i);
    if (name) array.Set(i, name); }] *)
Definition identifiers (count : nat) (identifier : nat -> option string)
  : list (option Napi.Value) :=
  fold_left
    (fun array i =>
       match identifier i with
       | Some alg_name => Napi.SetElement i (Napi.String alg_name) array
       | None => array
       end)
    (seq 0 count) [].

Definition GetAvailableAlgorithms (info : list Napi.Value)
  : Call W Napi.Value :=
  let kems := identifiers OQS_KEM_algs_length OQS_KEM_alg_identifier in
  let sigs := identifiers OQS_SIG_algs_length OQS_SIG_alg_identifier in
  ret (Napi.Object [ ("kems"%string, Napi.Array kems);
                     ("signatures"%string, Napi.Array sigs) ]).

Definition GetLibOQSVersion (info : list Napi.Value) : Call W Napi.Value :=
  ret (Napi.String OQS_VERSION_TEXT).

(** Stub methods for KEM encapsulation (for future implementation). *)
Definition KEMEncapsulate (info : list Napi.Value) : Call W Napi.Value :=
  throw (Napi.Error "KEMEncapsulate not yet implemented").

Definition KEMDecapsulate (info : list Napi.Value) : Call W Napi.Value :=
  throw (Napi.Error "KEMDecapsulate not yet implemented").

(** The method table that [Init] passes to [DefineClass]. *)
Definition Init : list (string * (list Napi.Value -> Call W Napi.Value)) :=
  [ ("generateKEMKeyPair"%string, GenerateKEMKeyPair);
    ("kemEncapsulate"%string, KEMEncapsulate);
    ("kemDecapsulate"%string, KEMDecapsulate);
    ("generateSignatureKeyPair"%string, GenerateSignatureKeyPair);
    ("signData"%string, SignData);
    ("verifySignature"%string, VerifySignature);
    ("getAvailableAlgorithms"%string, GetAvailableAlgorithms);
    ("getLibOQSVersion"%string, GetLibOQSVersion) ].
End Addon.
End Registry.

(** ** The fixed backend: [liboqs_addon_direct.cpp], class [LibOQSDirectAddon] *)

Module Direct.

(** Constants from NIST standards *)
Definition MLKEM768_PUBLICKEYBYTES : nat := 1184.
Definition MLKEM768_SECRETKEYBYTES : nat := 2400.
Definition MLKEM768_CIPHERTEXTBYTES : nat := 1088.
Definition MLKEM768_SHAREDSECRETBYTES : nat := 32.

Definition MLDSA65_PUBLICKEYBYTES : nat := 1952.
Definition MLDSA65_SECRETKEYBYTES : nat := 4000.
Definition MLDSA65_SIGNATURE_BYTES : nat := 3309.

Section Addon.
Context {W : Type} {pqclean : PQClean W}.
Local Open Scope call_scope.

Definition GenerateKEMKeyPair (info : list Napi.Value) : Call W Napi.Value :=
  let public_key := vector MLKEM768_PUBLICKEYBYTES in
  let secret_key := vector MLKEM768_SECRETKEYBYTES in
  '(result, pk, sk) <- random PQCLEAN_MLKEM768_CLEAN_crypto_kem_keypair ;;
  let public_key := store public_key pk in
  let secret_key := store secret_key sk in
  if negb (result =? 0)%Z
  then throw (Napi.Error "Failed to generate ML-KEM-768 key pair")
  else
    ret (Napi.Object
           [ ("publicKey"%string, Napi.Buffer public_key);
             ("secretKey"%string, Napi.Buffer secret_key);
             ("algorithm"%string, Napi.String "ML-KEM-768");
             ("publicKeyLength"%string, Napi.Number MLKEM768_PUBLICKEYBYTES);
             ("secretKeyLength"%string, Napi.Number MLKEM768_SECRETKEYBYTES);
             ("ciphertextLength"%string,
               Napi.Number MLKEM768_CIPHERTEXTBYTES);
             ("sharedSecretLength"%string,
               Napi.Number MLKEM768_SHAREDSECRETBYTES) ]).

Definition GenerateSignatureKeyPair (info : list Napi.Value)
  : Call W Napi.Value :=
  let public_key := vector MLDSA65_PUBLICKEYBYTES in
  let secret_key := vector MLDSA65_SECRETKEYBYTES in
  '(result, pk, sk) <- random PQCLEAN_MLDSA65_CLEAN_crypto_sign_keypair ;;
  let public_key := store public_key pk in
  let secret_key := store secret_key sk in
  if negb (result =? 0)%Z
  then throw (Napi.Error "Failed to generate ML-DSA-65 key pair")
  else
    ret (Napi.Object
           [ ("publicKey"%string, Napi.Buffer public_key);
             ("secretKey"%string, Napi.Buffer secret_key);
             ("algorithm"%string, Napi.String "ML-DSA-65");
             ("publicKeyLength"%string, Napi.Number MLDSA65_PUBLICKEYBYTES);
             ("secretKeyLength"%string, Napi.Number MLDSA65_SECRETKEYBYTES);
             ("maxSignatureLength"%string,
               Napi.Number MLDSA65_SIGNATURE_BYTES) ]).

Definition SignData (info : list Napi.Value) : Call W Napi.Value :=
  if (length info <? 2)
     || negb (Napi.IsBuffer (Napi.arg info 0))
     || negb (Napi.IsBuffer (Napi.arg info 1))
  then throw (Napi.TypeError "Expected (data: Buffer, secretKey: Buffer)")
  else
    let data_buffer := Napi.Data (Napi.arg info 0) in
    let secret_key_buffer := Napi.Data (Napi.arg info 1) in
    let signed_message :=
      vector (length data_buffer + MLDSA65_SIGNATURE_BYTES) in
    secret_key <- pure (load MLDSA65_SECRETKEYBYTES secret_key_buffer) ;;
    '(result, sm) <-
      random (PQCLEAN_MLDSA65_CLEAN_crypto_sign data_buffer secret_key) ;;
    let signed_message := store signed_message sm in
    if negb (result =? 0)%Z
    then throw (Napi.Error "Failed to sign data with ML-DSA-65")
    else
      (* Extract just the signature part (first MLDSA65_SIGNATURE_BYTES) *)
      let signature := firstn MLDSA65_SIGNATURE_BYTES signed_message in
      ret (Napi.Buffer signature).

Definition VerifySignature (info : list Napi.Value) : Call W Napi.Value :=
  if (length info <? 3)
     || negb (Napi.IsBuffer (Napi.arg info 0))
     || negb (Napi.IsBuffer (Napi.arg info 1))
     || negb (Napi.IsBuffer (Napi.arg info 2))
  then
    throw (Napi.TypeError
             "Expected (data: Buffer, signature: Buffer, publicKey: Buffer)")
  else
    let data_buffer := Napi.Data (Napi.arg info 0) in
    let signature_buffer := Napi.Data (Napi.arg info 1) in
    let public_key_buffer := Napi.Data (Napi.arg info 2) in
    (* Reconstruct signed message (signature + data) *)
    let signed_message :=
      vector (length signature_buffer + length data_buffer) in
    let signed_message := copy_at signed_message 0 signature_buffer in
    let signed_message :=
      copy_at signed_message (length signature_buffer) data_buffer in
    let recovered_message := vector (length data_buffer) in
    public_key <- pure (load MLDSA65_PUBLICKEYBYTES public_key_buffer) ;;
    let '(result, m) :=
      PQCLEAN_MLDSA65_CLEAN_crypto_sign_open signed_message public_key in
    let recovered_message := store recovered_message m in
    ret (Napi.Boolean (result =? 0)%Z).

(** Stub methods for KEM operations. *)
Definition KEMEncapsulate (info : list Napi.Value) : Call W Napi.Value :=
  throw (Napi.Error "KEMEncapsulate not yet implemented").

Definition KEMDecapsulate (info : list Napi.Value) : Call W Napi.Value :=
  throw (Napi.Error "KEMDecapsulate not yet implemented").

Definition GetVersionInfo (info : list Napi.Value) : Call W Napi.Value :=
  ret (Napi.Object
         [ ("library"%string, Napi.String "libOQS-direct");
           ("version"%string, Napi.String "1.0.0-direct");
           ("algorithms"%string, Napi.String "ML-KEM-768, ML-DSA-65");
           ("mode"%string, Napi.String "DIRECT_PQCLEAN") ]).

(** The method table that [Init] passes to [DefineClass]. *)
Definition Init : list (string * (list Napi.Value -> Call W Napi.Value)) :=
  [ ("generateKEMKeyPair"%string, GenerateKEMKeyPair);
    ("kemEncapsulate"%string, KEMEncapsulate);
    ("kemDecapsulate"%string, KEMDecapsulate);
    ("generateSignatureKeyPair"%string, GenerateSignatureKeyPair);
    ("signData"%string, SignData);
    ("verifySignature"%string, VerifySignature);
    ("getVersionInfo"%string, GetVersionInfo) ].
End Addon.
End Direct.

(** ** Calling an addon from JavaScript *)

Section Instance.
Context {W : Type}.
Variable methods : list (string * (list Napi.Value -> Call W Napi.Value)).

(** [addon.name(...info)] on an instance whose class was defined with the
    method table [methods]. *)
Definition invoke (name : string) (info : list Napi.Value)
  : Call W Napi.Value :=
  match find (fun entry => String.eqb (fst entry) name) methods with
  | Some (_, method) => method info
  | None => throw (Napi.TypeError "addon method is not a function")
  end.

(** The library state after a sequence of calls, whatever they returned. *)
Fixpoint run (calls : list (string * list Napi.Value)) (w : W) : W :=
  match calls with
  | [] => w
  | (name, info) :: rest => run rest (snd (invoke name info w))
  end.
End Instance.

(** ** Executable stand-ins for the primitive libraries

    A checksum "signature scheme" with the byte lengths of ML-KEM-768 and
    ML-DSA-65.  It has no security; it gives the interfaces inhabitants on
    which the addons can be run.  The library state is a counter. *)

Module Toy.

Definition byte_add (a b : byte) : byte :=
  match Byte.of_N ((Byte.to_N a + Byte.to_N b) mod 256) with
  | Some c => c
  | None => x00
  end.

Definition fresh (w : nat) : byte :=
  match Byte.of_N (N.of_nat w mod 256) with
  | Some c => c
  | None => x00
  end.

Fixpoint bytes_eqb (a b : list byte) : bool :=
  match a, b with
  | [], [] => true
  | x :: a', y :: b' => Byte.eqb x y && bytes_eqb a' b'
  | _, _ => false
  end.

(** Both keys repeat one byte; the signature of [message] repeats the sum
    of that byte and the bytes of the message. *)
Definition tag (key message : list byte) : byte :=
  fold_left byte_add message (hd x00 key).

Definition keypair (public_len secret_len : nat) (w : nat)
  : list byte * list byte * nat :=
  (repeat (fresh w) public_len, repeat (fresh w) secret_len, S w).

Definition sign (signature_len : nat) (message secret_key : list byte)
  : list byte :=
  repeat (tag secret_key message) signature_len.

Definition verify (signature_len : nat)
  (message signature public_key : list byte) : bool :=
  bytes_eqb signature (repeat (tag public_key message) signature_len).

(** A PQClean whose signed message is the signature followed by the
    message, the signature being [signature_len] bytes long. *)
Definition pqclean_with (signature_len : nat) : PQClean nat := {|
  PQCLEAN_MLKEM768_CLEAN_crypto_kem_keypair w :=
    let '(pk, sk, w') := keypair 1184 2400 w in ((0%Z, pk, sk), w');
  PQCLEAN_MLKEM768_CLEAN_crypto_kem_enc pk w :=
    ((0%Z, repeat (byte_add (hd x00 pk) (fresh w)) 1088,
      repeat (fresh w) 32), S w);
  PQCLEAN_MLKEM768_CLEAN_crypto_kem_dec ct sk :=
    (0%Z, repeat (byte_add (hd x00 ct) (hd x00 sk)) 32);
  PQCLEAN_MLDSA65_CLEAN_crypto_sign_keypair w :=
    let '(pk, sk, w') := keypair 1952 4000 w in ((0%Z, pk, sk), w');
  PQCLEAN_MLDSA65_CLEAN_crypto_sign m sk w :=
    ((0%Z, sign signature_len m sk ++ m), S w);
  PQCLEAN_MLDSA65_CLEAN_crypto_sign_open sm pk :=
    if (signature_len <=? length sm)
       && verify signature_len (skipn signature_len sm)
            (firstn signature_len sm) pk
    then (0%Z, skipn signature_len sm)
    else ((-1)%Z, [])
|}.

(** The stand-in with the signature length of ML-DSA-65. *)
Definition pqclean : PQClean nat := pqclean_with 3309.

(** A stand-in that signs with 16 bytes, for a primitive that reports a
    signature shorter than the maximum. *)
Definition pqclean_short : PQClean nat := pqclean_with 16.

Definition ml_kem_768 : OQS_KEM.t := {|
  OQS_KEM.length_public_key := 1184;
  OQS_KEM.length_secret_key := 2400;
  OQS_KEM.length_ciphertext := 1088;
  OQS_KEM.length_shared_secret := 32
|}.

Definition ml_dsa_65 : OQS_SIG.t := {|
  OQS_SIG.length_public_key := 1952;
  OQS_SIG.length_secret_key := 4000;
  OQS_SIG.length_signature := 3309
|}.

(** A liboqs that registers [kems] and [sigs] and can instantiate
    ML-KEM-768 always and ML-DSA-65 when [dsa] is set. *)
Definition liboqs_with (kems sigs : list string) (dsa : bool) : LibOQS nat := {|
  OQS_VERSION_TEXT := "0.10.1";
  OQS_KEM_alg_ml_kem_768 := "ML-KEM-768";
  OQS_SIG_alg_ml_dsa_65 := "ML-DSA-65";
  OQS_KEM_algs_length := length kems;
  OQS_KEM_alg_identifier i := nth_error kems i;
  OQS_SIG_algs_length := length sigs;
  OQS_SIG_alg_identifier i := nth_error sigs i;
  OQS_KEM_new name :=
    if String.eqb name "ML-KEM-768" then Some ml_kem_768 else None;
  OQS_SIG_new name :=
    if dsa && String.eqb name "ML-DSA-65" then Some ml_dsa_65 else None;
  OQS_KEM_keypair kem w :=
    let '(pk, sk, w') :=
      keypair (OQS_KEM.length_public_key kem) (OQS_KEM.length_secret_key kem) w
    in ((OQS_SUCCESS, pk, sk), w');
  OQS_SIG_keypair sig w :=
    let '(pk, sk, w') :=
      keypair (OQS_SIG.length_public_key sig) (OQS_SIG.length_secret_key sig) w
    in ((OQS_SUCCESS, pk, sk), w');
  OQS_SIG_sign sig m sk w :=
    ((OQS_SUCCESS, sign (OQS_SIG.length_signature sig) m sk), S w);
  OQS_SIG_verify sig m s pk :=
    if verify (OQS_SIG.length_signature sig) m s pk
    then OQS_SUCCESS else OQS_ERROR
|}.

(** Sample data: the message "AB" and a key pair of repeated bytes. *)
Definition message : list byte := [x41; x42].
Definition public_key : list byte := repeat x05 1952.
Definition secret_key : list byte := repeat x05 4000.
Definition signature : list byte := sign 3309 message secret_key.

Definition liboqs : LibOQS nat :=
  liboqs_with ["BIKE-L1"; "ML-KEM-768"]%string ["ML-DSA-65"; "Falcon-512"]%string
    true.

(** A build of liboqs in which ML-DSA-65 is not enabled. *)
Definition liboqs_without_ml_dsa : LibOQS nat :=
  liboqs_with ["BIKE-L1"; "ML-KEM-768"]%string ["Falcon-512"]%string false.

End Toy.

(** * Properties *)

(** ** Byte vectors *)

Arguments vector : simpl never.
Arguments store : simpl never.
Arguments copy_at : simpl never.
Arguments resize : simpl never.
Arguments load : simpl never.

Lemma vector_length (n : nat) : length (vector n) = n.
Proof. apply repeat_length. Qed.

Lemma store_length (dst src : list byte) : length (store dst src) = length dst.
Proof.
  unfold store. rewrite length_firstn, length_app, length_skipn. lia.
Qed.

Lemma store_fits (dst src : list byte) :
  length src <= length dst -> store dst src = src ++ skipn (length src) dst.
Proof.
  intros Hfit. unfold store. apply firstn_all2.
  rewrite length_app, length_skipn. lia.
Qed.

Lemma store_exact (dst src : list byte) :
  length src = length dst -> store dst src = src.
Proof.
  intros Hlen. rewrite store_fits by lia.
  rewrite skipn_all2 by lia. apply app_nil_r.
Qed.

Lemma resize_length (n : nat) (v : list byte) : length (resize n v) = n.
Proof.
  unfold resize. rewrite length_app, length_firstn, repeat_length. lia.
Qed.

Lemma resize_store (dst src : list byte) :
  length src <= length dst -> resize (length src) (store dst src) = src.
Proof.
  intros Hfit. unfold resize. rewrite store_length, store_fits by exact Hfit.
  replace (length src - length dst) with 0 by lia.
  rewrite firstn_app, firstn_all, Nat.sub_diag. cbn [firstn repeat].
  now rewrite !app_nil_r.
Qed.

(** The two [std::copy] calls of the fixed backend's [VerifySignature] fill
    the vector with the signature followed by the data. *)
Lemma reconstructed_signed_message (signature data : list byte) :
  copy_at (copy_at (vector (length signature + length data)) 0 signature)
    (length signature) data
  = signature ++ data.
Proof.
  unfold copy_at at 2. cbn [firstn skipn app].
  rewrite store_fits by (rewrite vector_length; lia).
  unfold copy_at.
  rewrite firstn_app, firstn_all, Nat.sub_diag. cbn [firstn].
  rewrite app_nil_r. f_equal.
  rewrite skipn_app, skipn_all, Nat.sub_diag. cbn [skipn app].
  apply store_exact. rewrite length_skipn, vector_length. lia.
Qed.

Lemma load_enough (n : nat) (buffer : list byte) :
  n <= length buffer -> load n buffer = Returns (firstn n buffer).
Proof.
  intros Hlen. unfold load.
  destruct (Nat.leb_spec n (length buffer)); [reflexivity | lia].
Qed.

Lemma load_short (n : nat) (buffer : list byte) :
  length buffer < n -> load n buffer = Faults OutOfBoundsRead.
Proof.
  intros Hlen. unfold load.
  destruct (Nat.leb_spec n (length buffer)); [lia | reflexivity].
Qed.

(** ** What each backend's [VerifySignature] computes on three buffers *)

Section VerifyOnBuffers.
Context {W : Type} {oqs : LibOQS W} {pqclean : PQClean W}.
Variables data signature public_key : list byte.
Variable w : W.

Lemma registry_verify_unavailable :
  OQS_SIG_new OQS_SIG_alg_ml_dsa_65 = None ->
  Registry.VerifySignature
    [Napi.Buffer data; Napi.Buffer signature; Napi.Buffer public_key] w
  = (Throws (Napi.Error "Failed to create ML-DSA-65 instance"), w).
Proof.
  intros Hnew. unfold Registry.VerifySignature. cbn. now rewrite Hnew.
Qed.

Lemma registry_verify_buffers (sig : OQS_SIG.t) :
  OQS_SIG_new OQS_SIG_alg_ml_dsa_65 = Some sig ->
  OQS_SIG.length_public_key sig <= length public_key ->
  Registry.VerifySignature
    [Napi.Buffer data; Napi.Buffer signature; Napi.Buffer public_key] w
  = (Returns
       (Napi.Boolean
          (OQS_STATUS_eqb
             (OQS_SIG_verify sig data signature
                (firstn (OQS_SIG.length_public_key sig) public_key))
             OQS_SUCCESS)), w).
Proof.
  intros Hnew Hlen. unfold Registry.VerifySignature. cbn. rewrite Hnew.
  unfold bind, pure. now rewrite load_enough by exact Hlen.
Qed.

Lemma registry_verify_short_key (sig : OQS_SIG.t) :
  OQS_SIG_new OQS_SIG_alg_ml_dsa_65 = Some sig ->
  length public_key < OQS_SIG.length_public_key sig ->
  Registry.VerifySignature
    [Napi.Buffer data; Napi.Buffer signature; Napi.Buffer public_key] w
  = (Faults OutOfBoundsRead, w).
Proof.
  intros Hnew Hlen. unfold Registry.VerifySignature. cbn. rewrite Hnew.
  unfold bind, pure. now rewrite load_short by exact Hlen.
Qed.

Lemma direct_verify_buffers :
  Direct.MLDSA65_PUBLICKEYBYTES <= length public_key ->
  Direct.VerifySignature
    [Napi.Buffer data; Napi.Buffer signature; Napi.Buffer public_key] w
  = (Returns
       (Napi.Boolean
          (fst (PQCLEAN_MLDSA65_CLEAN_crypto_sign_open (signature ++ data)
                  (firstn Direct.MLDSA65_PUBLICKEYBYTES public_key))
           =? 0)%Z), w).
Proof.
  intros Hlen. unfold Direct.VerifySignature.
  cbn [length Nat.ltb Nat.leb orb negb Napi.arg nth Napi.IsBuffer Napi.Data].
  rewrite reconstructed_signed_message.
  unfold bind, pure. rewrite load_enough by exact Hlen.
  now destruct (PQCLEAN_MLDSA65_CLEAN_crypto_sign_open _ _).
Qed.

Lemma direct_verify_short_key :
  length public_key < Direct.MLDSA65_PUBLICKEYBYTES ->
  Direct.VerifySignature
    [Napi.Buffer data; Napi.Buffer signature; Napi.Buffer public_key] w
  = (Faults OutOfBoundsRead, w).
Proof.
  intros Hlen. unfold Direct.VerifySignature.
  cbn [length Nat.ltb Nat.leb orb negb Napi.arg nth Napi.IsBuffer Napi.Data].
  unfold bind, pure. now rewrite load_short by exact Hlen.
Qed.
End VerifyOnBuffers.

(** ** [VerifySignature] and the library state *)

Section Stateless.
Context {W : Type} {oqs : LibOQS W} {pqclean : PQClean W}.

Lemma registry_verify_ignores_state (info : list Napi.Value) (w1 w2 : W) :
  fst (Registry.VerifySignature info w1) = fst (Registry.VerifySignature info w2)
  /\ snd (Registry.VerifySignature info w1) = w1.
Proof.
  unfold Registry.VerifySignature.
  destruct (_ || _); [now split |].
  destruct (OQS_SIG_new _) as [sig |]; [| now split].
  unfold bind, pure. now destruct (load _ _).
Qed.

Lemma direct_verify_ignores_state (info : list Napi.Value) (w1 w2 : W) :
  fst (Direct.VerifySignature info w1) = fst (Direct.VerifySignature info w2)
  /\ snd (Direct.VerifySignature info w1) = w1.
Proof.
  unfold Direct.VerifySignature.
  destruct (_ || _); [now split |].
  unfold bind, pure. destruct (load _ _); [| now split | now split].
  now destruct (PQCLEAN_MLDSA65_CLEAN_crypto_sign_open _ _).
Qed.
End Stateless.

(** ** Key generation *)

Section KeyGeneration.
Context {W : Type} {oqs : LibOQS W} {pqclean : PQClean W}.
Variable info : list Napi.Value.
Variables w w' : W.
Variable v : Napi.Value.

Lemma direct_kem_keypair_shape :
  Direct.GenerateKEMKeyPair info w = (Returns v, w') ->
  exists kp pk sk,
    v = Napi.Object kp
    /\ Napi.Get "publicKey" kp = Some (Napi.Buffer pk)
    /\ Napi.Get "secretKey" kp = Some (Napi.Buffer sk)
    /\ Napi.Get "algorithm" kp = Some (Napi.String "ML-KEM-768")
    /\ length pk = Direct.MLKEM768_PUBLICKEYBYTES
    /\ length sk = Direct.MLKEM768_SECRETKEYBYTES.
Proof.
  unfold Direct.GenerateKEMKeyPair, bind, random.
  destruct (PQCLEAN_MLKEM768_CLEAN_crypto_kem_keypair w)
    as [[[result pk] sk] w1].
  destruct (result =? 0)%Z; cbn [negb]; unfold throw, ret; intros Hcall;
    [| discriminate].
  injection Hcall as <- _. eexists _, _, _.
  repeat split; rewrite store_length; apply vector_length.
Qed.

Lemma direct_sig_keypair_shape :
  Direct.GenerateSignatureKeyPair info w = (Returns v, w') ->
  exists kp pk sk,
    v = Napi.Object kp
    /\ Napi.Get "publicKey" kp = Some (Napi.Buffer pk)
    /\ Napi.Get "secretKey" kp = Some (Napi.Buffer sk)
    /\ Napi.Get "algorithm" kp = Some (Napi.String "ML-DSA-65")
    /\ length pk = Direct.MLDSA65_PUBLICKEYBYTES
    /\ length sk = Direct.MLDSA65_SECRETKEYBYTES.
Proof.
  unfold Direct.GenerateSignatureKeyPair, bind, random.
  destruct (PQCLEAN_MLDSA65_CLEAN_crypto_sign_keypair w)
    as [[[result pk] sk] w1].
  destruct (result =? 0)%Z; cbn [negb]; unfold throw, ret; intros Hcall;
    [| discriminate].
  injection Hcall as <- _. eexists _, _, _.
  repeat split; rewrite store_length; apply vector_length.
Qed.

Lemma registry_kem_keypair_shape :
  Registry.GenerateKEMKeyPair info w = (Returns v, w') ->
  exists kem kp pk sk,
    OQS_KEM_new OQS_KEM_alg_ml_kem_768 = Some kem
    /\ v = Napi.Object kp
    /\ Napi.Get "publicKey" kp = Some (Napi.Buffer pk)
    /\ Napi.Get "secretKey" kp = Some (Napi.Buffer sk)
    /\ Napi.Get "algorithm" kp = Some (Napi.String "ML-KEM-768")
    /\ length pk = OQS_KEM.length_public_key kem
    /\ length sk = OQS_KEM.length_secret_key kem.
Proof.
  unfold Registry.GenerateKEMKeyPair.
  destruct (OQS_KEM_new _) as [kem |]; [| discriminate].
  unfold bind, random.
  destruct (OQS_KEM_keypair kem w) as [[[status pk] sk] w1].
  destruct (OQS_STATUS_eqb status OQS_SUCCESS); cbn [negb];
    unfold throw, ret; intros Hcall; [| discriminate].
  injection Hcall as <- _. eexists kem, _, _, _.
  repeat split; rewrite store_length; apply vector_length.
Qed.

Lemma registry_sig_keypair_shape :
  Registry.GenerateSignatureKeyPair info w = (Returns v, w') ->
  exists sig kp pk sk,
    OQS_SIG_new OQS_SIG_alg_ml_dsa_65 = Some sig
    /\ v = Napi.Object kp
    /\ Napi.Get "publicKey" kp = Some (Napi.Buffer pk)
    /\ Napi.Get "secretKey" kp = Some (Napi.Buffer sk)
    /\ Napi.Get "algorithm" kp = Some (Napi.String "ML-DSA-65")
    /\ length pk = OQS_SIG.length_public_key sig
    /\ length sk = OQS_SIG.length_secret_key sig.
Proof.
  unfold Registry.GenerateSignatureKeyPair.
  destruct (OQS_SIG_new _) as [sig |]; [| discriminate].
  unfold bind, random.
  destruct (OQS_SIG_keypair sig w) as [[[status pk] sk] w1].
  destruct (OQS_STATUS_eqb status OQS_SUCCESS); cbn [negb];
    unfold throw, ret; intros Hcall; [| discriminate].
  injection Hcall as <- _. eexists sig, _, _, _.
  repeat split; rewrite store_length; apply vector_length.
Qed.
End KeyGeneration.

(** ** Signing *)

Section Signing.
Context {W : Type} {oqs : LibOQS W} {pqclean : PQClean W}.
Variable info : list Napi.Value.
Variables w w' : W.
Variable v : Napi.Value.

(** A successful [SignData] of the fixed backend returns the first
    [MLDSA65_SIGNATURE_BYTES] bytes of the signed-message vector. *)
Lemma direct_sign_shape :
  Direct.SignData info w = (Returns v, w') ->
  exists secret_key sm,
    load Direct.MLDSA65_SECRETKEYBYTES (Napi.Data (Napi.arg info 1))
    = Returns secret_key
    /\ PQCLEAN_MLDSA65_CLEAN_crypto_sign (Napi.Data (Napi.arg info 0))
         secret_key w = ((0%Z, sm), w')
    /\ v = Napi.Buffer
             (firstn Direct.MLDSA65_SIGNATURE_BYTES
                (store
                   (vector (length (Napi.Data (Napi.arg info 0))
                            + Direct.MLDSA65_SIGNATURE_BYTES)) sm)).
Proof.
  unfold Direct.SignData.
  destruct (_ || _); [discriminate |].
  unfold bind, pure, random.
  destruct (load _ _) as [secret_key | e | f] eqn:Hload;
    [| discriminate | discriminate].
  destruct (PQCLEAN_MLDSA65_CLEAN_crypto_sign _ secret_key w)
    as [[result sm] w1] eqn:Hsign.
  destruct (Z.eqb_spec result 0) as [-> | _]; cbn [negb];
    unfold throw, ret; intros Hcall; [| discriminate].
  injection Hcall as <- <-. now exists secret_key, sm.
Qed.

Lemma signature_prefix_length (n : nat) (sm : list byte) :
  length
    (firstn Direct.MLDSA65_SIGNATURE_BYTES
       (store (vector (n + Direct.MLDSA65_SIGNATURE_BYTES)) sm))
  = Direct.MLDSA65_SIGNATURE_BYTES.
Proof.
  rewrite length_firstn, store_length, vector_length. lia.
Qed.

(** A successful [SignData] of the registry backend returns the signature
    vector resized to the length the primitive reported. *)
Lemma registry_sign_shape :
  Registry.SignData info w = (Returns v, w') ->
  exists sig secret_key written,
    OQS_SIG_new OQS_SIG_alg_ml_dsa_65 = Some sig
    /\ load (OQS_SIG.length_secret_key sig) (Napi.Data (Napi.arg info 1))
       = Returns secret_key
    /\ OQS_SIG_sign sig (Napi.Data (Napi.arg info 0)) secret_key w
       = ((OQS_SUCCESS, written), w')
    /\ v = Napi.Buffer
             (resize (length written)
                (store (vector (OQS_SIG.length_signature sig)) written)).
Proof.
  unfold Registry.SignData.
  destruct (_ || _); [discriminate |].
  destruct (OQS_SIG_new _) as [sig |]; [| discriminate].
  unfold bind, pure, random.
  destruct (load _ _) as [secret_key | e | f] eqn:Hload;
    [| discriminate | discriminate].
  destruct (OQS_SIG_sign sig _ secret_key w) as [[status written] w1]
    eqn:Hsign.
  destruct status; cbn [negb OQS_STATUS_eqb]; unfold throw, ret;
    intros Hcall; try discriminate.
  injection Hcall as <- <-. now exists sig, secret_key, written.
Qed.
End Signing.

(** ** Listing the registered algorithms *)

Section Listing.
Variable identifier : nat -> option string.

Lemma set_element_past_end (i : nat) (x : Napi.Value)
  (elements : list (option Napi.Value)) :
  length elements <= i ->
  Napi.SetElement i x elements
  = elements ++ repeat None (i - length elements) ++ [Some x].
Proof.
  intros Hlen. unfold Napi.SetElement.
  destruct (Nat.ltb_spec i (length elements)); [lia | reflexivity].
Qed.

Lemma identifiers_invariant (count : nat) :
  length (Registry.identifiers count identifier) <= count
  /\ forall x : Napi.Value,
       In (Some x) (Registry.identifiers count identifier)
       <-> exists i alg_name,
             i < count /\ identifier i = Some alg_name
             /\ x = Napi.String alg_name.
Proof.
  unfold Registry.identifiers.
  induction count as [| k [IHlen IHin]].
  - cbn. split; [lia |]. intros x. split; [tauto |].
    intros (i & _ & Hi & _). lia.
  - rewrite seq_S, fold_left_app. cbn [fold_left Nat.add].
    set (array := fold_left _ (seq 0 k) []) in *.
    destruct (identifier k) as [alg_name |] eqn:Hk.
    + rewrite set_element_past_end by exact IHlen. split.
      * rewrite !length_app, repeat_length. cbn [length]. lia.
      * intros x. rewrite !in_app_iff, IHin. cbn [In]. split.
        -- intros [(i & nm & Hi & Hid & Hx) | [Hhole | [Hlast | []]]].
           ++ exists i, nm. repeat split; [lia | assumption | assumption].
           ++ apply repeat_spec in Hhole. discriminate.
           ++ injection Hlast as <-. exists k, alg_name.
              repeat split; [lia | assumption].
        -- intros (i & nm & Hi & Hid & Hx).
           destruct (Nat.eq_dec i k) as [-> | Hne].
           ++ right. right. left. rewrite Hk in Hid. injection Hid as ->.
              now subst x.
           ++ left. exists i, nm. repeat split; [lia | assumption | assumption].
    + split; [lia |]. intros x. rewrite IHin. split.
      * intros (i & nm & Hi & Hid & Hx). exists i, nm.
        repeat split; [lia | assumption | assumption].
      * intros (i & nm & Hi & Hid & Hx).
        destruct (Nat.eq_dec i k) as [-> | Hne]; [congruence |].
        exists i, nm. repeat split; [lia | assumption | assumption].
Qed.

Lemma identifiers_spec (count : nat) (alg_name : string) :
  In (Some (Napi.String alg_name)) (Registry.identifiers count identifier)
  <-> exists i, i < count /\ identifier i = Some alg_name.
Proof.
  rewrite (proj2 (identifiers_invariant count)). split.
  - intros (i & nm & Hi & Hid & Hx). injection Hx as ->. now exists i.
  - intros (i & Hi & Hid). now exists i, alg_name.
Qed.
End Listing.

(** ** Stand-in primitives *)

Lemma toy_bytes_eqb_repeat (a : list byte) (x : byte) (n : nat) :
  Toy.bytes_eqb a (repeat x n) = true -> length a = n.
Proof.
  revert n. induction a as [| y a IH]; intros [| n]; cbn; try discriminate.
  - reflexivity.
  - intros H. apply andb_prop in H as [_ H]. f_equal. now apply IH.
Qed.

Lemma toy_verify_length (n : nat) (m s pk : list byte) :
  Toy.verify n m s pk = true -> length s = n.
Proof. apply toy_bytes_eqb_repeat. Qed.

(** ** KEM encapsulation and decapsulation *)

(** C1 (as the code has it).  In both backends [KEMEncapsulate] and
    [KEMDecapsulate] are stubs: every call, whatever its arguments and the
    library state, raises "KEMEncapsulate not yet implemented" (respectively
    "KEMDecapsulate not yet implemented"), returns no ciphertext or shared
    secret and leaves the library state untouched. *)
Theorem kem_encapsulation_not_implemented (W : Type)
  (info : list Napi.Value) (w : W) :
  Registry.KEMEncapsulate info w
  = (Throws (Napi.Error "KEMEncapsulate not yet implemented"), w)
  /\ Registry.KEMDecapsulate info w
     = (Throws (Napi.Error "KEMDecapsulate not yet implemented"), w)
  /\ Direct.KEMEncapsulate info w
     = (Throws (Napi.Error "KEMEncapsulate not yet implemented"), w)
  /\ Direct.KEMDecapsulate info w
     = (Throws (Napi.Error "KEMDecapsulate not yet implemented"), w).
Proof. repeat split. Qed.

(** C1 (as stated) does not hold: it is not the case that for every
    generated ML-KEM-768 key pair encapsulation with the public key returns
    a result.  Neither backend does. *)
Lemma generated_kem_key_cannot_encapsulate :
  ~ (forall (W : Type) (pqclean : PQClean W) (w w1 : W)
       (kp : list (string * Napi.Value)) (pk : list byte),
        Direct.GenerateKEMKeyPair [] w = (Returns (Napi.Object kp), w1) ->
        Napi.Get "publicKey" kp = Some (Napi.Buffer pk) ->
        exists result w2,
          Direct.KEMEncapsulate [Napi.Buffer pk] w1 = (Returns result, w2))
  /\ ~ (forall (W : Type) (oqs : LibOQS W) (w w1 : W)
          (kp : list (string * Napi.Value)) (pk : list byte),
           Registry.GenerateKEMKeyPair [] w = (Returns (Napi.Object kp), w1) ->
           Napi.Get "publicKey" kp = Some (Napi.Buffer pk) ->
           exists result w2,
             Registry.KEMEncapsulate [Napi.Buffer pk] w1
             = (Returns result, w2)).
Proof.
  split; intros Hclaim.
  - destruct (Hclaim nat Toy.pqclean 5 6 _ (repeat x05 1184) eq_refl eq_refl)
      as (result & w2 & Hcall).
    discriminate Hcall.
  - destruct (Hclaim nat Toy.liboqs 5 6 _ (repeat x05 1184) eq_refl eq_refl)
      as (result & w2 & Hcall).
    discriminate Hcall.
Qed.

(** ** Buffer lengths on entry *)

(** C2 (as the code has it).  Encapsulation and decapsulation fail on every
    call, whatever the lengths of their buffers, with the "not yet
    implemented" error of the stub: no primitive is reached and no buffer is
    read.  [VerifySignature] does not validate the length of the public key
    and raises no length error: given a buffer at least as long as the
    declared public key it hands the first declared-length bytes to the
    primitive and returns the primitive's verdict as a boolean. *)
Theorem lengths_are_not_validated (W : Type) (oqs : LibOQS W)
  (pqclean : PQClean W) (info : list Napi.Value)
  (data signature public_key : list byte) (w : W) :
  (Registry.KEMEncapsulate info w
   = (Throws (Napi.Error "KEMEncapsulate not yet implemented"), w)
   /\ Registry.KEMDecapsulate info w
      = (Throws (Napi.Error "KEMDecapsulate not yet implemented"), w)
   /\ Direct.KEMEncapsulate info w
      = (Throws (Napi.Error "KEMEncapsulate not yet implemented"), w)
   /\ Direct.KEMDecapsulate info w
      = (Throws (Napi.Error "KEMDecapsulate not yet implemented"), w))
  /\ (Direct.MLDSA65_PUBLICKEYBYTES <= length public_key ->
      Direct.VerifySignature
        [Napi.Buffer data; Napi.Buffer signature; Napi.Buffer public_key] w
      = (Returns
           (Napi.Boolean
              (fst (PQCLEAN_MLDSA65_CLEAN_crypto_sign_open
                      (signature ++ data)
                      (firstn Direct.MLDSA65_PUBLICKEYBYTES public_key))
               =? 0)%Z), w))
  /\ (forall sig : OQS_SIG.t,
        OQS_SIG_new OQS_SIG_alg_ml_dsa_65 = Some sig ->
        OQS_SIG.length_public_key sig <= length public_key ->
        Registry.VerifySignature
          [Napi.Buffer data; Napi.Buffer signature; Napi.Buffer public_key] w
        = (Returns
             (Napi.Boolean
                (OQS_STATUS_eqb
                   (OQS_SIG_verify sig data signature
                      (firstn (OQS_SIG.length_public_key sig) public_key))
                   OQS_SUCCESS)), w)).
Proof.
  split; [repeat split |]. split.
  - apply direct_verify_buffers.
  - intros sig. apply registry_verify_buffers.
Qed.

(** [lengths_are_not_validated] at a public key one byte too long. *)
Lemma lengths_are_not_validated_witness :
  Direct.VerifySignature (pqclean := Toy.pqclean)
    [Napi.Buffer Toy.message; Napi.Buffer Toy.signature;
     Napi.Buffer (Toy.public_key ++ [x00])] 5
  = (Returns (Napi.Boolean true), 5)
  /\ Registry.VerifySignature (oqs := Toy.liboqs)
       [Napi.Buffer Toy.message; Napi.Buffer Toy.signature;
        Napi.Buffer (Toy.public_key ++ [x00])] 5
     = (Returns (Napi.Boolean true), 5).
Proof.
  pose proof (lengths_are_not_validated nat Toy.liboqs Toy.pqclean []
                Toy.message Toy.signature (Toy.public_key ++ [x00]) 5)
    as (_ & Hdirect & Hregistry).
  split.
  - rewrite Hdirect; [vm_compute; reflexivity | vm_compute; lia].
  - rewrite (Hregistry Toy.ml_dsa_65);
      [vm_compute; reflexivity | reflexivity | vm_compute; lia].
Defined.

(** C2 (as stated) does not hold.  With a public key one byte longer than
    declared both backends return a boolean instead of failing, and with an
    empty public key the primitive reads past the end of the buffer. *)
Lemma verify_takes_wrong_length_key :
  length (Toy.public_key ++ [x00]) <> Direct.MLDSA65_PUBLICKEYBYTES
  /\ Direct.VerifySignature (pqclean := Toy.pqclean)
       [Napi.Buffer Toy.message; Napi.Buffer Toy.signature;
        Napi.Buffer (Toy.public_key ++ [x00])] 5
     = (Returns (Napi.Boolean true), 5)
  /\ Registry.VerifySignature (oqs := Toy.liboqs)
       [Napi.Buffer Toy.message; Napi.Buffer Toy.signature;
        Napi.Buffer (Toy.public_key ++ [x00])] 5
     = (Returns (Napi.Boolean true), 5)
  /\ Direct.VerifySignature (pqclean := Toy.pqclean)
       [Napi.Buffer Toy.message; Napi.Buffer Toy.signature; Napi.Buffer []] 5
     = (Faults OutOfBoundsRead, 5)
  /\ Registry.VerifySignature (oqs := Toy.liboqs)
       [Napi.Buffer Toy.message; Napi.Buffer Toy.signature; Napi.Buffer []] 5
     = (Faults OutOfBoundsRead, 5).
Proof.
  split; [vm_compute; lia |].
  repeat split; vm_compute; reflexivity.
Qed.

(** ** Verification: mismatch and errors *)

(** C3 (as the code has it).  For every message, signature buffer and
    correctly sized public key, [VerifySignature] returns the boolean
    [false] when the primitive reports that the signature does not match,
    and a mismatch is never signalled by an exception.  The fixed backend
    raises no exception on three buffers; the registry backend raises one,
    "Failed to create ML-DSA-65 instance", and only when liboqs cannot create
    the ML-DSA-65 instance, whatever the message, signature and public key. *)
Theorem verify_reports_mismatch_as_false (W : Type) (oqs : LibOQS W)
  (pqclean : PQClean W) (data signature public_key : list byte) (w : W) :
  (length public_key = Direct.MLDSA65_PUBLICKEYBYTES ->
   fst (PQCLEAN_MLDSA65_CLEAN_crypto_sign_open (signature ++ data) public_key)
   <> 0%Z ->
   Direct.VerifySignature
     [Napi.Buffer data; Napi.Buffer signature; Napi.Buffer public_key] w
   = (Returns (Napi.Boolean false), w))
  /\ (forall sig : OQS_SIG.t,
        OQS_SIG_new OQS_SIG_alg_ml_dsa_65 = Some sig ->
        length public_key = OQS_SIG.length_public_key sig ->
        OQS_SIG_verify sig data signature public_key <> OQS_SUCCESS ->
        Registry.VerifySignature
          [Napi.Buffer data; Napi.Buffer signature; Napi.Buffer public_key] w
        = (Returns (Napi.Boolean false), w))
  /\ (forall (e : Napi.Exception) (w' : W),
        Direct.VerifySignature
          [Napi.Buffer data; Napi.Buffer signature; Napi.Buffer public_key] w
        <> (Throws e, w'))
  /\ (forall (e : Napi.Exception) (w' : W),
        Registry.VerifySignature
          [Napi.Buffer data; Napi.Buffer signature; Napi.Buffer public_key] w
        = (Throws e, w') ->
        OQS_SIG_new OQS_SIG_alg_ml_dsa_65 = None
        /\ e = Napi.Error "Failed to create ML-DSA-65 instance").
Proof.
  split; [| split; [| split]].
  - intros Hlen Hbad. rewrite direct_verify_buffers by lia.
    rewrite firstn_all2 by lia.
    destruct (Z.eqb_spec
                (fst (PQCLEAN_MLDSA65_CLEAN_crypto_sign_open
                        (signature ++ data) public_key)) 0);
      [contradiction | reflexivity].
  - intros sig Hnew Hlen Hbad.
    rewrite (registry_verify_buffers _ _ _ _ _ Hnew) by lia.
    rewrite firstn_all2 by lia.
    destruct (OQS_SIG_verify sig data signature public_key);
      [reflexivity | contradiction | reflexivity].
  - intros e w'.
    destruct (Nat.le_gt_cases Direct.MLDSA65_PUBLICKEYBYTES (length public_key)).
    + now rewrite direct_verify_buffers.
    + now rewrite direct_verify_short_key.
  - intros e w' Hthrows.
    destruct (OQS_SIG_new OQS_SIG_alg_ml_dsa_65) as [sig |] eqn:Hnew.
    + exfalso.
      destruct (Nat.le_gt_cases (OQS_SIG.length_public_key sig)
                  (length public_key)).
      * now rewrite (registry_verify_buffers _ _ _ _ _ Hnew) in Hthrows.
      * now rewrite (registry_verify_short_key _ _ _ _ _ Hnew) in Hthrows.
    + rewrite registry_verify_unavailable in Hthrows by exact Hnew.
      split; [reflexivity | congruence].
Qed.

(** [verify_reports_mismatch_as_false] on a signature with one byte changed,
    under the sample public key. *)
Lemma verify_reports_mismatch_as_false_witness :
  Direct.VerifySignature (pqclean := Toy.pqclean)
    [Napi.Buffer Toy.message; Napi.Buffer (x00 :: tl Toy.signature);
     Napi.Buffer Toy.public_key] 5
  = (Returns (Napi.Boolean false), 5)
  /\ Registry.VerifySignature (oqs := Toy.liboqs)
       [Napi.Buffer Toy.message; Napi.Buffer (x00 :: tl Toy.signature);
        Napi.Buffer Toy.public_key] 5
     = (Returns (Napi.Boolean false), 5).
Proof.
  pose proof (verify_reports_mismatch_as_false nat Toy.liboqs Toy.pqclean
                Toy.message (x00 :: tl Toy.signature) Toy.public_key 5)
    as (Hdirect & Hregistry & _).
  split.
  - apply Hdirect; [reflexivity | vm_compute; discriminate].
  - apply (Hregistry Toy.ml_dsa_65);
      [reflexivity | reflexivity | vm_compute; discriminate].
Defined.

(** C3 (as stated) does not hold: with a public key of the declared length
    the registry backend still raises an exception when liboqs has no
    ML-DSA-65 instance; and a public key of the wrong length, one byte too
    long, raises no exception in either backend. *)
Lemma registry_verify_raises_without_instance :
  (length Toy.public_key = 1952
   /\ Registry.VerifySignature (oqs := Toy.liboqs_without_ml_dsa)
        [Napi.Buffer Toy.message; Napi.Buffer Toy.signature;
         Napi.Buffer Toy.public_key] 5
      = (Throws (Napi.Error "Failed to create ML-DSA-65 instance"), 5))
  /\ (length (Toy.public_key ++ [x00]) = 1953
      /\ Registry.VerifySignature (oqs := Toy.liboqs)
           [Napi.Buffer Toy.message; Napi.Buffer Toy.signature;
            Napi.Buffer (Toy.public_key ++ [x00])] 5
         = (Returns (Napi.Boolean true), 5)
      /\ Direct.VerifySignature (pqclean := Toy.pqclean)
           [Napi.Buffer Toy.message; Napi.Buffer Toy.signature;
            Napi.Buffer (Toy.public_key ++ [x00])] 5
         = (Returns (Napi.Boolean true), 5)).
Proof. repeat split; vm_compute; reflexivity. Qed.

(** ** Length of a returned signature *)

(** C4 (as the code has it).  A successful [SignData] of the registry
    backend returns a buffer whose length is the signature length the
    primitive reported, and which holds exactly the bytes the primitive
    wrote when that length is at most [length_signature].  A successful
    [SignData] of the fixed backend returns [MLDSA65_SIGNATURE_BYTES] bytes
    whatever length the primitive reported. *)
Theorem signature_length_by_backend (W : Type) (oqs : LibOQS W)
  (pqclean : PQClean W) (info : list Napi.Value) (v : Napi.Value)
  (w w' : W) :
  (Registry.SignData info w = (Returns v, w') ->
   exists (sig : OQS_SIG.t) (secret_key written signature : list byte),
     OQS_SIG_new OQS_SIG_alg_ml_dsa_65 = Some sig
     /\ OQS_SIG_sign sig (Napi.Data (Napi.arg info 0)) secret_key w
        = ((OQS_SUCCESS, written), w')
     /\ v = Napi.Buffer signature
     /\ length signature = length written
     /\ (length written <= OQS_SIG.length_signature sig ->
         signature = written))
  /\ (Direct.SignData info w = (Returns v, w') ->
      exists signature : list byte,
        v = Napi.Buffer signature
        /\ length signature = Direct.MLDSA65_SIGNATURE_BYTES).
Proof.
  split; intros Hcall.
  - apply registry_sign_shape in Hcall
      as (sig & secret_key & written & Hnew & _ & Hsign & ->).
    exists sig, secret_key, written. eexists.
    repeat split; [exact Hnew | exact Hsign | apply resize_length |].
    intros Hfit. apply resize_store. now rewrite vector_length.
  - apply direct_sign_shape in Hcall as (secret_key & sm & _ & _ & ->).
    eexists. split; [reflexivity | apply signature_prefix_length].
Qed.

(** [signature_length_by_backend] on the sample message and secret key. *)
Lemma signature_length_by_backend_witness :
  (exists (sig : OQS_SIG.t) (secret_key written signature : list byte),
     OQS_SIG_new (LibOQS := Toy.liboqs)
       (OQS_SIG_alg_ml_dsa_65 (LibOQS := Toy.liboqs)) = Some sig
     /\ OQS_SIG_sign (LibOQS := Toy.liboqs) sig Toy.message secret_key 5
        = ((OQS_SUCCESS, written), 6)
     /\ Napi.Buffer Toy.signature = Napi.Buffer signature
     /\ length signature = length written
     /\ (length written <= OQS_SIG.length_signature sig ->
         signature = written))
  /\ (exists signature : list byte,
        Napi.Buffer Toy.signature = Napi.Buffer signature
        /\ length signature = Direct.MLDSA65_SIGNATURE_BYTES).
Proof.
  pose proof (signature_length_by_backend nat Toy.liboqs Toy.pqclean
                [Napi.Buffer Toy.message; Napi.Buffer Toy.secret_key]
                (Napi.Buffer Toy.signature) 5 6) as (Hregistry & Hdirect).
  split.
  - apply Hregistry. vm_compute. reflexivity.
  - apply Hdirect. vm_compute. reflexivity.
Defined.

(** C4 (as stated) does not hold in the fixed backend: when the primitive
    reports a signed message of 16 + 2 bytes for the two-byte message, that
    is a signature of 16 bytes, the returned buffer still has 3309 bytes,
    the signature followed by the message and by zero bytes. *)
Lemma direct_sign_ignores_reported_length :
  PQCLEAN_MLDSA65_CLEAN_crypto_sign (PQClean := Toy.pqclean_short)
    Toy.message Toy.secret_key 5
  = ((0%Z, Toy.sign 16 Toy.message Toy.secret_key ++ Toy.message), 6)
  /\ length (Toy.sign 16 Toy.message Toy.secret_key) = 16
  /\ Direct.SignData (pqclean := Toy.pqclean_short)
       [Napi.Buffer Toy.message; Napi.Buffer Toy.secret_key] 5
     = (Returns
          (Napi.Buffer
             (Toy.sign 16 Toy.message Toy.secret_key ++ Toy.message
              ++ repeat x00 3291)), 6)
  /\ length
       (Toy.sign 16 Toy.message Toy.secret_key ++ Toy.message
        ++ repeat x00 3291) = 3309.
Proof. repeat split; vm_compute; reflexivity. Qed.

(** ** Lengths of generated keys *)

(** C5.  Every successful key generation returns a public-key buffer and a
    secret-key buffer of exactly the declared lengths: 1184 and 2400 bytes
    for ML-KEM-768 and 1952 and 4000 bytes for ML-DSA-65 in the fixed
    backend, and the lengths of the resolved algorithm object in the
    registry backend. *)
Theorem generated_keys_have_declared_lengths (W : Type) (oqs : LibOQS W)
  (pqclean : PQClean W) (info : list Napi.Value) (v : Napi.Value)
  (w w' : W) :
  (Direct.GenerateKEMKeyPair info w = (Returns v, w') ->
   exists kp pk sk,
     v = Napi.Object kp
     /\ Napi.Get "publicKey" kp = Some (Napi.Buffer pk)
     /\ Napi.Get "secretKey" kp = Some (Napi.Buffer sk)
     /\ length pk = 1184 /\ length sk = 2400)
  /\ (Direct.GenerateSignatureKeyPair info w = (Returns v, w') ->
      exists kp pk sk,
        v = Napi.Object kp
        /\ Napi.Get "publicKey" kp = Some (Napi.Buffer pk)
        /\ Napi.Get "secretKey" kp = Some (Napi.Buffer sk)
        /\ length pk = 1952 /\ length sk = 4000)
  /\ (Registry.GenerateKEMKeyPair info w = (Returns v, w') ->
      exists kem kp pk sk,
        OQS_KEM_new OQS_KEM_alg_ml_kem_768 = Some kem
        /\ v = Napi.Object kp
        /\ Napi.Get "publicKey" kp = Some (Napi.Buffer pk)
        /\ Napi.Get "secretKey" kp = Some (Napi.Buffer sk)
        /\ length pk = OQS_KEM.length_public_key kem
        /\ length sk = OQS_KEM.length_secret_key kem)
  /\ (Registry.GenerateSignatureKeyPair info w = (Returns v, w') ->
      exists sig kp pk sk,
        OQS_SIG_new OQS_SIG_alg_ml_dsa_65 = Some sig
        /\ v = Napi.Object kp
        /\ Napi.Get "publicKey" kp = Some (Napi.Buffer pk)
        /\ Napi.Get "secretKey" kp = Some (Napi.Buffer sk)
        /\ length pk = OQS_SIG.length_public_key sig
        /\ length sk = OQS_SIG.length_secret_key sig).
Proof.
  split; [| split; [| split]]; intros Hcall.
  - apply direct_kem_keypair_shape in Hcall
      as (kp & pk & sk & Hv & Hpk & Hsk & _ & Hlpk & Hlsk).
    now exists kp, pk, sk.
  - apply direct_sig_keypair_shape in Hcall
      as (kp & pk & sk & Hv & Hpk & Hsk & _ & Hlpk & Hlsk).
    now exists kp, pk, sk.
  - apply registry_kem_keypair_shape in Hcall
      as (kem & kp & pk & sk & Hnew & Hv & Hpk & Hsk & _ & Hlpk & Hlsk).
    now exists kem, kp, pk, sk.
  - apply registry_sig_keypair_shape in Hcall
      as (sig & kp & pk & sk & Hnew & Hv & Hpk & Hsk & _ & Hlpk & Hlsk).
    now exists sig, kp, pk, sk.
Qed.

(** [generated_keys_have_declared_lengths] on the ML-KEM-768 pair that the
    stand-in PQClean generates from state 5. *)
Lemma generated_keys_have_declared_lengths_witness :
  exists kp pk sk,
    fst (Direct.GenerateKEMKeyPair (pqclean := Toy.pqclean) [] 5)
    = Returns (Napi.Object kp)
    /\ Napi.Get "publicKey" kp = Some (Napi.Buffer pk)
    /\ Napi.Get "secretKey" kp = Some (Napi.Buffer sk)
    /\ length pk = 1184 /\ length sk = 2400.
Proof.
  destruct (proj1 (generated_keys_have_declared_lengths nat Toy.liboqs
                     Toy.pqclean []
                     (Napi.Object
                        [ ("publicKey"%string, Napi.Buffer (repeat x05 1184));
                          ("secretKey"%string, Napi.Buffer (repeat x05 2400));
                          ("algorithm"%string, Napi.String "ML-KEM-768");
                          ("publicKeyLength"%string, Napi.Number 1184);
                          ("secretKeyLength"%string, Napi.Number 2400);
                          ("ciphertextLength"%string, Napi.Number 1088);
                          ("sharedSecretLength"%string, Napi.Number 32) ])
                     5 6))
    as (kp & pk & sk & Hv & Hrest).
  - vm_compute. reflexivity.
  - exists kp, pk, sk. split; [| exact Hrest].
    rewrite <- Hv. vm_compute. reflexivity.
Defined.

(** ** Listed algorithms and key generation *)

(** C6 (as the code has it).  In the registry backend key generation takes
    no algorithm name: whatever its arguments, [GenerateKEMKeyPair] asks
    liboqs for ML-KEM-768 and [GenerateSignatureKeyPair] for ML-DSA-65, and
    a key pair they return is labelled with that algorithm.
    [GetAvailableAlgorithms] lists, for each kind, exactly the identifiers
    that liboqs reports below its count of algorithms, whether or not key
    generation can produce them. *)
Theorem key_generation_is_hard_wired (W : Type) (oqs : LibOQS W)
  (info : list Napi.Value) (v : Napi.Value) (w w' : W) :
  (Registry.GenerateKEMKeyPair info w = Registry.GenerateKEMKeyPair [] w
   /\ Registry.GenerateSignatureKeyPair info w
      = Registry.GenerateSignatureKeyPair [] w)
  /\ (Registry.GenerateKEMKeyPair info w = (Returns v, w') ->
      exists kp,
        v = Napi.Object kp
        /\ Napi.Get "algorithm" kp = Some (Napi.String "ML-KEM-768")
        /\ OQS_KEM_new OQS_KEM_alg_ml_kem_768 <> None)
  /\ (Registry.GenerateSignatureKeyPair info w = (Returns v, w') ->
      exists kp,
        v = Napi.Object kp
        /\ Napi.Get "algorithm" kp = Some (Napi.String "ML-DSA-65")
        /\ OQS_SIG_new OQS_SIG_alg_ml_dsa_65 <> None)
  /\ exists kems sigs,
       Registry.GetAvailableAlgorithms info w
       = (Returns
            (Napi.Object [ ("kems"%string, Napi.Array kems);
                           ("signatures"%string, Napi.Array sigs) ]), w)
       /\ (forall alg_name : string,
             In (Some (Napi.String alg_name)) kems
             <-> exists i, i < OQS_KEM_algs_length
                           /\ OQS_KEM_alg_identifier i = Some alg_name)
       /\ (forall alg_name : string,
             In (Some (Napi.String alg_name)) sigs
             <-> exists i, i < OQS_SIG_algs_length
                           /\ OQS_SIG_alg_identifier i = Some alg_name).
Proof.
  split; [now split |]. split; [| split].
  - intros Hcall. apply registry_kem_keypair_shape in Hcall
      as (kem & kp & pk & sk & Hnew & Hv & _ & _ & Halg & _).
    exists kp. repeat split; [exact Hv | exact Halg | congruence].
  - intros Hcall. apply registry_sig_keypair_shape in Hcall
      as (sig & kp & pk & sk & Hnew & Hv & _ & _ & Halg & _).
    exists kp. repeat split; [exact Hv | exact Halg | congruence].
  - eexists _, _. split; [reflexivity |].
    split; intros alg_name; apply identifiers_spec.
Qed.

(** [key_generation_is_hard_wired] on the key pair that the registry
    backend generates, over the stand-in liboqs, when it is passed the
    listed name "BIKE-L1". *)
Lemma key_generation_is_hard_wired_witness :
  exists kp,
    fst (Registry.GenerateKEMKeyPair (oqs := Toy.liboqs)
           [Napi.String "BIKE-L1"] 5)
    = Returns (Napi.Object kp)
    /\ Napi.Get "algorithm" kp = Some (Napi.String "ML-KEM-768").
Proof.
  pose proof (key_generation_is_hard_wired nat Toy.liboqs
                [Napi.String "BIKE-L1"]
                (Napi.Object
                   [ ("publicKey"%string, Napi.Buffer (repeat x05 1184));
                     ("secretKey"%string, Napi.Buffer (repeat x05 2400));
                     ("algorithm"%string, Napi.String "ML-KEM-768");
                     ("publicKeyLength"%string, Napi.Number 1184);
                     ("secretKeyLength"%string, Napi.Number 2400);
                     ("ciphertextLength"%string, Napi.Number 1088);
                     ("sharedSecretLength"%string, Napi.Number 32) ])
                5 6) as (_ & Hkem & _).
  destruct Hkem as (kp & Hv & Halg & _).
  - vm_compute. reflexivity.
  - exists kp. split; [| exact Halg].
    rewrite <- Hv. vm_compute. reflexivity.
Defined.

(** C6 (as stated) does not hold: the stand-in liboqs lists "BIKE-L1" among
    its KEMs, and no call of either key generator, whatever its arguments,
    returns a "BIKE-L1" key pair. *)
Lemma listed_algorithm_is_not_generated :
  Registry.GetAvailableAlgorithms (oqs := Toy.liboqs) [] 5
  = (Returns
       (Napi.Object
          [ ("kems"%string,
              Napi.Array [ Some (Napi.String "BIKE-L1");
                           Some (Napi.String "ML-KEM-768") ]);
            ("signatures"%string,
              Napi.Array [ Some (Napi.String "ML-DSA-65");
                           Some (Napi.String "Falcon-512") ]) ]), 5)
  /\ forall (info : list Napi.Value) (w w' : nat)
       (kp : list (string * Napi.Value)),
       Registry.GenerateKEMKeyPair (oqs := Toy.liboqs) info w
       = (Returns (Napi.Object kp), w')
       \/ Registry.GenerateSignatureKeyPair (oqs := Toy.liboqs) info w
          = (Returns (Napi.Object kp), w') ->
       Napi.Get "algorithm" kp <> Some (Napi.String "BIKE-L1").
Proof.
  split; [reflexivity |].
  intros info w w' kp [Hcall | Hcall].
  - apply registry_kem_keypair_shape in Hcall
      as (kem & kp' & pk & sk & _ & Hv & _ & _ & Halg & _).
    injection Hv as ->. rewrite Halg. discriminate.
  - apply registry_sig_keypair_shape in Hcall
      as (sig & kp' & pk & sk & _ & Hv & _ & _ & Halg & _).
    injection Hv as ->. rewrite Halg. discriminate.
Qed.

(** ** Verification is a function of its three arguments *)

(** C7.  In either backend the outcome of [verifySignature] is determined
    by its arguments alone: it is the same in the library state reached
    after any sequence of calls to the addon (key generation, signing or
    any other method) as before them, and the call itself leaves the
    library state as it found it. *)
Theorem verify_is_stateless (W : Type) (oqs : LibOQS W)
  (pqclean : PQClean W) (info : list Napi.Value)
  (calls : list (string * list Napi.Value)) (w : W) :
  (fst (invoke Registry.Init "verifySignature" info
          (run Registry.Init calls w))
   = fst (invoke Registry.Init "verifySignature" info w)
   /\ snd (invoke Registry.Init "verifySignature" info w) = w)
  /\ (fst (invoke Direct.Init "verifySignature" info
             (run Direct.Init calls w))
      = fst (invoke Direct.Init "verifySignature" info w)
      /\ snd (invoke Direct.Init "verifySignature" info w) = w).
Proof.
  change (invoke Registry.Init "verifySignature" info)
    with (Registry.VerifySignature info).
  change (invoke Direct.Init "verifySignature" info)
    with (Direct.VerifySignature info).
  split; split.
  - apply registry_verify_ignores_state.
  - apply (registry_verify_ignores_state info w w).
  - apply direct_verify_ignores_state.
  - apply (direct_verify_ignores_state info w w).
Qed.

(** ** Where the signature ends and the message begins *)

Section SignatureBoundary.
Context {W : Type} {pqclean : PQClean W}.
Variables prefix data signature public_key : list byte.
Variable w : W.

(** The fixed backend sees only the concatenation of its signature and data
    arguments: bytes moved from the front of the message to the end of the
    signature leave the call unchanged. *)
Lemma direct_verify_resplit :
  Direct.VerifySignature
    [Napi.Buffer data; Napi.Buffer (signature ++ prefix);
     Napi.Buffer public_key] w
  = Direct.VerifySignature
      [Napi.Buffer (prefix ++ data); Napi.Buffer signature;
       Napi.Buffer public_key] w.
Proof.
  destruct (Nat.le_gt_cases Direct.MLDSA65_PUBLICKEYBYTES (length public_key)).
  - rewrite !direct_verify_buffers by assumption. now rewrite <- app_assoc.
  - now rewrite !direct_verify_short_key by assumption.
Qed.

Lemma direct_verify_empty_signature :
  Direct.VerifySignature
    [Napi.Buffer (signature ++ data); Napi.Buffer []; Napi.Buffer public_key] w
  = Direct.VerifySignature
      [Napi.Buffer data; Napi.Buffer signature; Napi.Buffer public_key] w.
Proof.
  destruct (Nat.le_gt_cases Direct.MLDSA65_PUBLICKEYBYTES (length public_key)).
  - now rewrite !direct_verify_buffers by assumption.
  - now rewrite !direct_verify_short_key by assumption.
Qed.
End SignatureBoundary.

(** When liboqs and PQClean implement one verification predicate [valid]
    over a signature of the declared length, a message and a public key, the
    two backends return the same boolean for every signature buffer of
    exactly that length. *)
Section SameScheme.
Context {W : Type} {oqs : LibOQS W} {pqclean : PQClean W}.
Variable sig : OQS_SIG.t.
Variable valid : list byte -> list byte -> list byte -> bool.
Hypothesis instance : OQS_SIG_new OQS_SIG_alg_ml_dsa_65 = Some sig.
Hypothesis same_key_length :
  OQS_SIG.length_public_key sig = Direct.MLDSA65_PUBLICKEYBYTES.
Hypothesis same_signature_length :
  OQS_SIG.length_signature sig = Direct.MLDSA65_SIGNATURE_BYTES.
Hypothesis liboqs_verifies :
  forall m s pk,
    OQS_SIG_verify sig m s pk = OQS_SUCCESS
    <-> length s = OQS_SIG.length_signature sig /\ valid s m pk = true.
Hypothesis pqclean_opens :
  forall sm pk,
    fst (PQCLEAN_MLDSA65_CLEAN_crypto_sign_open sm pk) = 0%Z
    <-> Direct.MLDSA65_SIGNATURE_BYTES <= length sm
        /\ valid (firstn Direct.MLDSA65_SIGNATURE_BYTES sm)
             (skipn Direct.MLDSA65_SIGNATURE_BYTES sm) pk = true.

Lemma backends_agree_on_full_length_signature
  (data signature public_key : list byte) (w : W) :
  length signature = Direct.MLDSA65_SIGNATURE_BYTES ->
  Direct.MLDSA65_PUBLICKEYBYTES <= length public_key ->
  Registry.VerifySignature
    [Napi.Buffer data; Napi.Buffer signature; Napi.Buffer public_key] w
  = Direct.VerifySignature
      [Napi.Buffer data; Napi.Buffer signature; Napi.Buffer public_key] w.
Proof.
  intros Hsig Hkey.
  rewrite (registry_verify_buffers _ _ _ _ _ instance) by lia.
  rewrite direct_verify_buffers by exact Hkey.
  rewrite same_key_length. do 3 f_equal.
  set (pk := firstn _ public_key).
  assert (Hsame :
            OQS_SIG_verify sig data signature pk = OQS_SUCCESS
            <-> fst (PQCLEAN_MLDSA65_CLEAN_crypto_sign_open
                       (signature ++ data) pk) = 0%Z).
  { rewrite liboqs_verifies, pqclean_opens, same_signature_length.
    rewrite <- Hsig, firstn_app, skipn_app, firstn_all, skipn_all.
    rewrite Nat.sub_diag. cbn [firstn skipn app]. rewrite app_nil_r.
    rewrite length_app. intuition lia. }
  destruct (Z.eqb_spec
              (fst (PQCLEAN_MLDSA65_CLEAN_crypto_sign_open
                      (signature ++ data) pk)) 0) as [Hopen | Hopen].
  - apply Hsame in Hopen. now rewrite Hopen.
  - destruct (OQS_SIG_verify sig data signature pk) eqn:Hverify;
      try reflexivity.
    exfalso. apply Hopen. now apply Hsame.
Qed.
End SameScheme.

(** C8, at the input on which the backends part.  Let [signature] verify
    for the message [prefix ++ data] in the fixed backend, and let liboqs
    reject, as it does for ML-DSA-65, every signature that has not the
    declared length.  Called with the data [data] and the signature buffer
    [signature ++ prefix], the registry backend returns [false] and the
    fixed backend returns [true]. *)
Theorem backends_disagree_on_resplit_signature (W : Type) (oqs : LibOQS W)
  (pqclean : PQClean W) (sig : OQS_SIG.t)
  (prefix data signature public_key : list byte) (w : W) :
  OQS_SIG_new OQS_SIG_alg_ml_dsa_65 = Some sig ->
  OQS_SIG.length_public_key sig <= length public_key ->
  (forall m s pk,
      length s <> OQS_SIG.length_signature sig ->
      OQS_SIG_verify sig m s pk <> OQS_SUCCESS) ->
  length signature = OQS_SIG.length_signature sig ->
  prefix <> [] ->
  Direct.VerifySignature
    [Napi.Buffer (prefix ++ data); Napi.Buffer signature;
     Napi.Buffer public_key] w
  = (Returns (Napi.Boolean true), w) ->
  Registry.VerifySignature
    [Napi.Buffer data; Napi.Buffer (signature ++ prefix);
     Napi.Buffer public_key] w
  = (Returns (Napi.Boolean false), w)
  /\ Direct.VerifySignature
       [Napi.Buffer data; Napi.Buffer (signature ++ prefix);
        Napi.Buffer public_key] w
     = (Returns (Napi.Boolean true), w).
Proof.
  intros Hnew Hkey Hrejects Hsig Hprefix Hvalid. split.
  - rewrite (registry_verify_buffers _ _ _ _ _ Hnew) by exact Hkey.
    assert (Hlen : length (signature ++ prefix)
                   <> OQS_SIG.length_signature sig).
    { rewrite length_app. destruct prefix; [contradiction | cbn; lia]. }
    specialize (Hrejects data (signature ++ prefix)
                  (firstn (OQS_SIG.length_public_key sig) public_key) Hlen).
    destruct (OQS_SIG_verify _ _ _ _); [reflexivity | contradiction | reflexivity].
  - now rewrite direct_verify_resplit.
Qed.

(** [backends_disagree_on_resplit_signature] on the sample signature of
    "AB", presented as a signature of 3310 bytes for the message "B". *)
Lemma backends_disagree_on_resplit_signature_witness :
  Registry.VerifySignature (oqs := Toy.liboqs)
    [Napi.Buffer [x42]; Napi.Buffer (Toy.signature ++ [x41]);
     Napi.Buffer Toy.public_key] 5
  = (Returns (Napi.Boolean false), 5)
  /\ Direct.VerifySignature (pqclean := Toy.pqclean)
       [Napi.Buffer [x42]; Napi.Buffer (Toy.signature ++ [x41]);
        Napi.Buffer Toy.public_key] 5
     = (Returns (Napi.Boolean true), 5).
Proof.
  apply (backends_disagree_on_resplit_signature nat Toy.liboqs Toy.pqclean
           Toy.ml_dsa_65 [x41] [x42] Toy.signature Toy.public_key 5).
  - reflexivity.
  - vm_compute. lia.
  - intros m s pk Hlen Hverify. apply Hlen.
    cbn in Hverify.
    destruct (Toy.verify 3309 m s pk) eqn:Hv; [| discriminate].
    now apply toy_verify_length in Hv.
  - vm_compute. reflexivity.
  - discriminate.
  - vm_compute. reflexivity.
Defined.

(** ** Signatures of the fixed backend *)

(** C9.  In the fixed backend every successful [SignData], for any message
    including the empty one, returns exactly [MLDSA65_SIGNATURE_BYTES] = 3309
    bytes: the first 3309 bytes of the signed-message vector, which was
    allocated with the message length plus 3309 bytes and written by the
    primitive. *)
Theorem direct_signature_has_fixed_length (W : Type) (pqclean : PQClean W)
  (info : list Napi.Value) (v : Napi.Value) (w w' : W) :
  Direct.SignData info w = (Returns v, w') ->
  exists secret_key sm signature,
    PQCLEAN_MLDSA65_CLEAN_crypto_sign (Napi.Data (Napi.arg info 0))
      secret_key w = ((0%Z, sm), w')
    /\ v = Napi.Buffer signature
    /\ signature
       = firstn 3309
           (store (vector (length (Napi.Data (Napi.arg info 0)) + 3309)) sm)
    /\ length signature = 3309.
Proof.
  intros Hcall.
  apply direct_sign_shape in Hcall as (secret_key & sm & _ & Hsign & ->).
  exists secret_key, sm. eexists.
  repeat split; [exact Hsign |].
  apply (signature_prefix_length (length (Napi.Data (Napi.arg info 0))) sm).
Qed.

(** [direct_signature_has_fixed_length] on the empty message. *)
Lemma direct_signature_has_fixed_length_witness :
  exists signature,
    fst (Direct.SignData (pqclean := Toy.pqclean)
           [Napi.Buffer []; Napi.Buffer Toy.secret_key] 5)
    = Returns (Napi.Buffer signature)
    /\ length signature = 3309.
Proof.
  destruct (direct_signature_has_fixed_length nat Toy.pqclean
              [Napi.Buffer []; Napi.Buffer Toy.secret_key]
              (Napi.Buffer (repeat x05 3309)) 5 6)
    as (secret_key & sm & signature & _ & Hv & _ & Hlen).
  - vm_compute. reflexivity.
  - exists signature. split; [| exact Hlen].
    rewrite <- Hv. vm_compute. reflexivity.
Defined.

(** ** Signature buffers of another length *)

(** C10, at inputs on which the fixed backend accepts a signature buffer
    of the wrong length.  If [signature], of 3309 bytes, verifies for the
    message [prefix ++ data], then the 3309 + |prefix| bytes
    [signature ++ prefix] verify for the message [data], and the empty
    signature buffer verifies for the message
    [signature ++ prefix ++ data]. *)
Theorem direct_verify_accepts_wrong_length_signature (W : Type)
  (pqclean : PQClean W) (prefix data signature public_key : list byte)
  (w : W) :
  length signature = Direct.MLDSA65_SIGNATURE_BYTES ->
  prefix <> [] ->
  Direct.VerifySignature
    [Napi.Buffer (prefix ++ data); Napi.Buffer signature;
     Napi.Buffer public_key] w
  = (Returns (Napi.Boolean true), w) ->
  (length (signature ++ prefix) <> Direct.MLDSA65_SIGNATURE_BYTES
   /\ Direct.VerifySignature
        [Napi.Buffer data; Napi.Buffer (signature ++ prefix);
         Napi.Buffer public_key] w
      = (Returns (Napi.Boolean true), w))
  /\ (length (@nil byte) <> Direct.MLDSA65_SIGNATURE_BYTES
      /\ Direct.VerifySignature
           [Napi.Buffer (signature ++ prefix ++ data); Napi.Buffer [];
            Napi.Buffer public_key] w
         = (Returns (Napi.Boolean true), w)).
Proof.
  intros Hsig Hprefix Hvalid. split; split.
  - rewrite length_app. destruct prefix; [contradiction | cbn; lia].
  - now rewrite direct_verify_resplit.
  - discriminate.
  - now rewrite direct_verify_empty_signature.
Qed.

(** [direct_verify_accepts_wrong_length_signature] on the sample signature
    of "AB". *)
Lemma direct_verify_accepts_wrong_length_signature_witness :
  (length (Toy.signature ++ [x41]) <> Direct.MLDSA65_SIGNATURE_BYTES
   /\ Direct.VerifySignature (pqclean := Toy.pqclean)
        [Napi.Buffer [x42]; Napi.Buffer (Toy.signature ++ [x41]);
         Napi.Buffer Toy.public_key] 5
      = (Returns (Napi.Boolean true), 5))
  /\ (length (@nil byte) <> Direct.MLDSA65_SIGNATURE_BYTES
      /\ Direct.VerifySignature (pqclean := Toy.pqclean)
           [Napi.Buffer (Toy.signature ++ [x41] ++ [x42]); Napi.Buffer [];
            Napi.Buffer Toy.public_key] 5
         = (Returns (Napi.Boolean true), 5)).
Proof.
  apply (direct_verify_accepts_wrong_length_signature nat Toy.pqclean
           [x41] [x42] Toy.signature Toy.public_key 5).
  - vm_compute. reflexivity.
  - discriminate.
  - vm_compute. reflexivity.
Defined.

(** * Further properties of the addon methods *)

(** ** What [SignData] computes on two buffers *)

Section SignOnBuffers.
Context {W : Type} {oqs : LibOQS W} {pqclean : PQClean W}.
Variables data secret_key : list byte.
Variable w : W.

Lemma direct_sign_buffers (result : Z) (sm : list byte) (w' : W) :
  Direct.MLDSA65_SECRETKEYBYTES <= length secret_key ->
  PQCLEAN_MLDSA65_CLEAN_crypto_sign data
    (firstn Direct.MLDSA65_SECRETKEYBYTES secret_key) w = ((result, sm), w') ->
  Direct.SignData [Napi.Buffer data; Napi.Buffer secret_key] w
  = if (result =? 0)%Z
    then (Returns
            (Napi.Buffer
               (firstn Direct.MLDSA65_SIGNATURE_BYTES
                  (store
                     (vector (length data + Direct.MLDSA65_SIGNATURE_BYTES))
                     sm))), w')
    else (Throws (Napi.Error "Failed to sign data with ML-DSA-65"), w').
Proof.
  intros Hlen Hsign. unfold Direct.SignData.
  cbn [length Nat.ltb Nat.leb orb negb Napi.arg nth Napi.IsBuffer Napi.Data].
  unfold bind, pure, random. rewrite load_enough by exact Hlen.
  rewrite Hsign. now destruct (result =? 0)%Z.
Qed.

Lemma registry_sign_buffers (sig : OQS_SIG.t) (status : OQS_STATUS)
  (written : list byte) (w' : W) :
  OQS_SIG_new OQS_SIG_alg_ml_dsa_65 = Some sig ->
  OQS_SIG.length_secret_key sig <= length secret_key ->
  OQS_SIG_sign sig data
    (firstn (OQS_SIG.length_secret_key sig) secret_key) w
  = ((status, written), w') ->
  Registry.SignData [Napi.Buffer data; Napi.Buffer secret_key] w
  = if OQS_STATUS_eqb status OQS_SUCCESS
    then (Returns
            (Napi.Buffer
               (resize (length written)
                  (store (vector (OQS_SIG.length_signature sig)) written))),
          w')
    else (Throws (Napi.Error "Failed to sign data with ML-DSA-65"), w').
Proof.
  intros Hnew Hlen Hsign. unfold Registry.SignData.
  cbn [length Nat.ltb Nat.leb orb negb Napi.arg nth Napi.IsBuffer Napi.Data].
  rewrite Hnew. unfold bind, pure, random. rewrite load_enough by exact Hlen.
  rewrite Hsign. now destruct (OQS_STATUS_eqb status OQS_SUCCESS).
Qed.

End SignOnBuffers.

(** ** Signing, then verifying *)

(** X1.  Fixed backend.  When the primitive signs [data] as a signed
    message made of a 3309-byte signature followed by [data], [SignData]
    returns exactly that signature; and when the primitive opens this
    signed message under the public key, [VerifySignature] on the same data
    and the returned signature answers [true].  Cutting the signature out of
    the signed message and putting it back in front of the data are inverse
    to each other. *)
Theorem direct_sign_then_verify (W : Type) (pqclean : PQClean W)
  (data secret_key public_key signature : list byte) (w w' : W) :
  Direct.MLDSA65_SECRETKEYBYTES <= length secret_key ->
  Direct.MLDSA65_PUBLICKEYBYTES <= length public_key ->
  length signature = Direct.MLDSA65_SIGNATURE_BYTES ->
  PQCLEAN_MLDSA65_CLEAN_crypto_sign data
    (firstn Direct.MLDSA65_SECRETKEYBYTES secret_key) w
  = ((0%Z, signature ++ data), w') ->
  fst (PQCLEAN_MLDSA65_CLEAN_crypto_sign_open (signature ++ data)
         (firstn Direct.MLDSA65_PUBLICKEYBYTES public_key)) = 0%Z ->
  Direct.SignData [Napi.Buffer data; Napi.Buffer secret_key] w
  = (Returns (Napi.Buffer signature), w')
  /\ Direct.VerifySignature
       [Napi.Buffer data; Napi.Buffer signature; Napi.Buffer public_key] w'
     = (Returns (Napi.Boolean true), w').
Proof.
  intros Hsk Hpk Hsig Hsign Hopen. split.
  - rewrite (direct_sign_buffers data secret_key w 0%Z (signature ++ data) w'
               Hsk Hsign).
    cbn [Z.eqb].
    rewrite store_exact by (rewrite vector_length, length_app; lia).
    rewrite <- Hsig, firstn_app, firstn_all, Nat.sub_diag. cbn [firstn].
    now rewrite app_nil_r.
  - rewrite direct_verify_buffers by exact Hpk. now rewrite Hopen.
Qed.

(** [direct_sign_then_verify] on the sample message and key pair. *)
Lemma direct_sign_then_verify_witness :
  Direct.SignData (pqclean := Toy.pqclean)
    [Napi.Buffer Toy.message; Napi.Buffer Toy.secret_key] 5
  = (Returns (Napi.Buffer Toy.signature), 6)
  /\ Direct.VerifySignature (pqclean := Toy.pqclean)
       [Napi.Buffer Toy.message; Napi.Buffer Toy.signature;
        Napi.Buffer Toy.public_key] 6
     = (Returns (Napi.Boolean true), 6).
Proof.
  apply (direct_sign_then_verify nat Toy.pqclean Toy.message Toy.secret_key
           Toy.public_key Toy.signature 5 6).
  - apply Nat.leb_le. vm_compute. reflexivity.
  - apply Nat.leb_le. vm_compute. reflexivity.
  - vm_compute. reflexivity.
  - vm_compute. reflexivity.
  - vm_compute. reflexivity.
Defined.

(** X2.  Registry backend.  When [OQS_SIG_sign] succeeds and writes a
    signature no longer than [length_signature], [SignData] returns exactly
    the bytes it wrote; and when [OQS_SIG_verify] accepts them for the same
    data under the public key, [VerifySignature] on the returned signature
    answers [true]. *)
Theorem registry_sign_then_verify (W : Type) (oqs : LibOQS W)
  (sig : OQS_SIG.t) (data secret_key public_key signature : list byte)
  (w w' : W) :
  OQS_SIG_new OQS_SIG_alg_ml_dsa_65 = Some sig ->
  OQS_SIG.length_secret_key sig <= length secret_key ->
  OQS_SIG.length_public_key sig <= length public_key ->
  length signature <= OQS_SIG.length_signature sig ->
  OQS_SIG_sign sig data
    (firstn (OQS_SIG.length_secret_key sig) secret_key) w
  = ((OQS_SUCCESS, signature), w') ->
  OQS_SIG_verify sig data signature
    (firstn (OQS_SIG.length_public_key sig) public_key) = OQS_SUCCESS ->
  Registry.SignData [Napi.Buffer data; Napi.Buffer secret_key] w
  = (Returns (Napi.Buffer signature), w')
  /\ Registry.VerifySignature
       [Napi.Buffer data; Napi.Buffer signature; Napi.Buffer public_key] w'
     = (Returns (Napi.Boolean true), w').
Proof.
  intros Hnew Hsk Hpk Hfit Hsign Hverify. split.
  - rewrite (registry_sign_buffers data secret_key w sig OQS_SUCCESS signature
               w' Hnew Hsk Hsign).
    cbn [OQS_STATUS_eqb].
    now rewrite resize_store by (now rewrite vector_length).
  - rewrite (registry_verify_buffers _ _ _ _ _ Hnew) by exact Hpk.
    now rewrite Hverify.
Qed.

(** [registry_sign_then_verify] on the sample message and key pair. *)
Lemma registry_sign_then_verify_witness :
  Registry.SignData (oqs := Toy.liboqs)
    [Napi.Buffer Toy.message; Napi.Buffer Toy.secret_key] 5
  = (Returns (Napi.Buffer Toy.signature), 6)
  /\ Registry.VerifySignature (oqs := Toy.liboqs)
       [Napi.Buffer Toy.message; Napi.Buffer Toy.signature;
        Napi.Buffer Toy.public_key] 6
     = (Returns (Napi.Boolean true), 6).
Proof.
  apply (registry_sign_then_verify nat Toy.liboqs Toy.ml_dsa_65 Toy.message
           Toy.secret_key Toy.public_key Toy.signature 5 6).
  - reflexivity.
  - apply Nat.leb_le. vm_compute. reflexivity.
  - apply Nat.leb_le. vm_compute. reflexivity.
  - apply Nat.leb_le. vm_compute. reflexivity.
  - vm_compute. reflexivity.
  - vm_compute. reflexivity.
Defined.

(** ** What a generated key pair reports *)

(** X3.  The lengths a generated key pair reports are the lengths of the
    buffers it carries: in both backends and for both algorithms the
    [publicKeyLength] and [secretKeyLength] properties of a returned key
    pair equal the byte lengths of its [publicKey] and [secretKey]. *)
Theorem keypair_reports_its_lengths (W : Type) (oqs : LibOQS W)
  (pqclean : PQClean W) (info : list Napi.Value) (v : Napi.Value)
  (w w' : W) :
  Direct.GenerateKEMKeyPair info w = (Returns v, w')
  \/ Direct.GenerateSignatureKeyPair info w = (Returns v, w')
  \/ Registry.GenerateKEMKeyPair info w = (Returns v, w')
  \/ Registry.GenerateSignatureKeyPair info w = (Returns v, w') ->
  exists kp pk sk,
    v = Napi.Object kp
    /\ Napi.Get "publicKey" kp = Some (Napi.Buffer pk)
    /\ Napi.Get "secretKey" kp = Some (Napi.Buffer sk)
    /\ Napi.Get "publicKeyLength" kp = Some (Napi.Number (length pk))
    /\ Napi.Get "secretKeyLength" kp = Some (Napi.Number (length sk)).
Proof.
  intros [Hcall | [Hcall | [Hcall | Hcall]]]; revert Hcall.
  - unfold Direct.GenerateKEMKeyPair, bind, random.
    destruct (PQCLEAN_MLKEM768_CLEAN_crypto_kem_keypair w)
      as [[[result pk] sk] w1].
    destruct (result =? 0)%Z; cbn [negb]; unfold throw, ret; intros Hcall;
      [| discriminate].
    injection Hcall as <- _. eexists _, _, _.
    repeat split; rewrite store_length, vector_length; reflexivity.
  - unfold Direct.GenerateSignatureKeyPair, bind, random.
    destruct (PQCLEAN_MLDSA65_CLEAN_crypto_sign_keypair w)
      as [[[result pk] sk] w1].
    destruct (result =? 0)%Z; cbn [negb]; unfold throw, ret; intros Hcall;
      [| discriminate].
    injection Hcall as <- _. eexists _, _, _.
    repeat split; rewrite store_length, vector_length; reflexivity.
  - unfold Registry.GenerateKEMKeyPair.
    destruct (OQS_KEM_new _) as [kem |]; [| discriminate].
    unfold bind, random.
    destruct (OQS_KEM_keypair kem w) as [[[status pk] sk] w1].
    destruct (OQS_STATUS_eqb status OQS_SUCCESS); cbn [negb];
      unfold throw, ret; intros Hcall; [| discriminate].
    injection Hcall as <- _. eexists _, _, _.
    repeat split; rewrite store_length, vector_length; reflexivity.
  - unfold Registry.GenerateSignatureKeyPair.
    destruct (OQS_SIG_new _) as [sig |]; [| discriminate].
    unfold bind, random.
    destruct (OQS_SIG_keypair sig w) as [[[status pk] sk] w1].
    destruct (OQS_STATUS_eqb status OQS_SUCCESS); cbn [negb];
      unfold throw, ret; intros Hcall; [| discriminate].
    injection Hcall as <- _. eexists _, _, _.
    repeat split; rewrite store_length, vector_length; reflexivity.
Qed.

(** [keypair_reports_its_lengths] on the ML-DSA-65 pair that the registry
    backend generates over the stand-in liboqs from state 5. *)
Lemma keypair_reports_its_lengths_witness :
  exists kp pk sk,
    fst (Registry.GenerateSignatureKeyPair (oqs := Toy.liboqs) [] 5)
    = Returns (Napi.Object kp)
    /\ Napi.Get "publicKey" kp = Some (Napi.Buffer pk)
    /\ Napi.Get "secretKey" kp = Some (Napi.Buffer sk)
    /\ Napi.Get "publicKeyLength" kp = Some (Napi.Number (length pk))
    /\ Napi.Get "secretKeyLength" kp = Some (Napi.Number (length sk)).
Proof.
  destruct (keypair_reports_its_lengths nat Toy.liboqs Toy.pqclean []
              (Napi.Object
                 [ ("publicKey"%string, Napi.Buffer Toy.public_key);
                   ("secretKey"%string, Napi.Buffer Toy.secret_key);
                   ("algorithm"%string, Napi.String "ML-DSA-65");
                   ("publicKeyLength"%string, Napi.Number 1952);
                   ("secretKeyLength"%string, Napi.Number 4000);
                   ("maxSignatureLength"%string, Napi.Number 3309) ])
              5 6)
    as (kp & pk & sk & Hv & Hrest).
  - right. right. right. vm_compute. reflexivity.
  - exists kp, pk, sk. split; [| exact Hrest].
    rewrite <- Hv. vm_compute. reflexivity.
Defined.

(** ** Indices of the listed algorithms *)

Section ListingIndices.
Variable identifier : nat -> option string.

Lemma identifiers_step (k : nat) :
  Registry.identifiers (S k) identifier
  = match identifier k with
    | Some alg_name =>
        Napi.SetElement k (Napi.String alg_name)
          (Registry.identifiers k identifier)
    | None => Registry.identifiers k identifier
    end.
Proof.
  unfold Registry.identifiers. now rewrite seq_S, fold_left_app.
Qed.

Lemma identifiers_nth (count i : nat) :
  nth i (Registry.identifiers count identifier) None
  = if i <? count then option_map Napi.String (identifier i) else None.
Proof.
  revert i. induction count as [| k IH]; intros i.
  - cbn. now destruct i.
  - pose proof (proj1 (identifiers_invariant identifier k)) as Hlen.
    rewrite identifiers_step.
    destruct (identifier k) as [alg_name |] eqn:Hk.
    + rewrite set_element_past_end by exact Hlen.
      set (array := Registry.identifiers k identifier) in *.
      destruct (Nat.lt_ge_cases i (length array)) as [Hin | Hout].
      * rewrite app_nth1 by exact Hin. rewrite IH.
        destruct (Nat.ltb_spec i k); [| lia].
        destruct (Nat.ltb_spec i (S k)); [reflexivity | lia].
      * rewrite app_nth2 by exact Hout.
        destruct (Nat.lt_trichotomy i k) as [Hlt | [-> | Hgt]].
        -- rewrite app_nth1 by (rewrite repeat_length; lia).
           rewrite nth_repeat.
           specialize (IH i). rewrite nth_overflow in IH by exact Hout.
           destruct (Nat.ltb_spec i k); [| lia].
           destruct (Nat.ltb_spec i (S k)); [exact IH | lia].
        -- rewrite app_nth2 by (rewrite repeat_length; lia).
           rewrite repeat_length, Nat.sub_diag. cbn [nth].
           destruct (Nat.ltb_spec k (S k)); [| lia]. now rewrite Hk.
        -- rewrite app_nth2 by (rewrite repeat_length; lia).
           rewrite repeat_length.
           rewrite nth_overflow by (cbn [length]; lia).
           destruct (Nat.ltb_spec i (S k)); [lia | reflexivity].
    + rewrite IH. destruct (Nat.lt_trichotomy i k) as [Hlt | [-> | Hgt]].
      * destruct (Nat.ltb_spec i k); [| lia].
        destruct (Nat.ltb_spec i (S k)); [reflexivity | lia].
      * destruct (Nat.ltb_spec k k); [lia |].
        destruct (Nat.ltb_spec k (S k)); [| lia]. now rewrite Hk.
      * destruct (Nat.ltb_spec i k); [lia |].
        destruct (Nat.ltb_spec i (S k)); [lia | reflexivity].
Qed.

Lemma identifiers_length_last (k : nat) (alg_name : string) :
  identifier k = Some alg_name ->
  length (Registry.identifiers (S k) identifier) = S k.
Proof.
  intros Hk. rewrite identifiers_step, Hk.
  pose proof (proj1 (identifiers_invariant identifier k)) as Hlen.
  rewrite set_element_past_end by exact Hlen.
  rewrite !length_app, repeat_length. cbn [length]. lia.
Qed.
End ListingIndices.

(** X4.  [GetAvailableAlgorithms] keeps the indices of liboqs: in each of
    the two arrays it returns, the element at index [i] is the identifier
    liboqs reports for [i] when [i] is below the count of algorithms and the
    identifier is not null, and a hole otherwise.  An array is never longer
    than the count, and has exactly that length when the last identifier is
    not null. *)
Theorem listing_keeps_library_indices (W : Type) (oqs : LibOQS W)
  (info : list Napi.Value) (w : W) :
  exists kems sigs,
    Registry.GetAvailableAlgorithms info w
    = (Returns
         (Napi.Object [ ("kems"%string, Napi.Array kems);
                        ("signatures"%string, Napi.Array sigs) ]), w)
    /\ (forall i,
          nth i kems None
          = if i <? OQS_KEM_algs_length
            then option_map Napi.String (OQS_KEM_alg_identifier i)
            else None)
    /\ (forall i,
          nth i sigs None
          = if i <? OQS_SIG_algs_length
            then option_map Napi.String (OQS_SIG_alg_identifier i)
            else None)
    /\ length kems <= OQS_KEM_algs_length
    /\ length sigs <= OQS_SIG_algs_length
    /\ (forall k alg_name,
          OQS_KEM_algs_length = S k ->
          OQS_KEM_alg_identifier k = Some alg_name ->
          length kems = OQS_KEM_algs_length)
    /\ (forall k alg_name,
          OQS_SIG_algs_length = S k ->
          OQS_SIG_alg_identifier k = Some alg_name ->
          length sigs = OQS_SIG_algs_length).
Proof.
  eexists _, _. split; [reflexivity |].
  split; [intros i; apply identifiers_nth |].
  split; [intros i; apply identifiers_nth |].
  split; [apply identifiers_invariant |].
  split; [apply identifiers_invariant |].
  split; intros k alg_name Hcount Hlast; rewrite Hcount;
    now apply identifiers_length_last with (alg_name := alg_name).
Qed.

(** [listing_keeps_library_indices] over a liboqs whose second KEM
    identifier is null: the array has a hole at index 1. *)
Lemma listing_keeps_library_indices_witness :
  Registry.identifiers 3
    (fun i => match i with
              | 0 => Some "BIKE-L1"%string
              | 2 => Some "ML-KEM-768"%string
              | _ => None
              end)
  = [Some (Napi.String "BIKE-L1"); None; Some (Napi.String "ML-KEM-768")]
  /\ exists kems sigs,
       Registry.GetAvailableAlgorithms (oqs := Toy.liboqs) [] 5
       = (Returns
            (Napi.Object [ ("kems"%string, Napi.Array kems);
                           ("signatures"%string, Napi.Array sigs) ]), 5)
       /\ length kems = 2.
Proof.
  split; [reflexivity |].
  destruct (listing_keeps_library_indices nat Toy.liboqs [] 5)
    as (kems & sigs & Hcall & _ & _ & _ & _ & Hlen & _).
  exists kems, sigs. split; [exact Hcall |].
  apply (Hlen 1 "ML-KEM-768"%string); reflexivity.
Defined.

(** ** Argument checks and a missing algorithm *)




